(** * MNIST IDX handler: a shallow embedding of [datahandler.hpp]

    The development follows [mlcpp/mnist_etl/datahandler.hpp] (namespace [lm]):
    the IDX header reader [ReadHeader], the file helper [ReadDataHelper], the
    payload readers [ReadImages] / [ReadLabels], and the class [DataHandler]
    with its private [build_data_] and [get_shape_].

    Modelling conventions.
    - A file buffer ([std::unique_ptr<char[]>] of [file_size] bytes) is a
      [list byte]; its length is the size of the allocation.
    - [uint32_t] and [std::size_t] values are [Z] with the wrap-around of the
      source arithmetic written out.
    - The host is little-endian (the source relies on it: it applies
      [__builtin_bswap32] to a host-order load to obtain the big-endian value),
      and a [uint32_t] load through the reinterpreted [char] pointer yields the
      word made of the four bytes it covers.
    - The element type [T] of the readers is [uint8_t], as in the shipped
      executable.
    - A C++ evaluation has three possible outcomes: a value, a thrown
      [std::runtime_error] (with its [what()] text), or undefined behaviour.
      The source performs no bounds check on the raw buffer nor on
      [operator[]]; every such access outside the object is [Undefined].
    - Memory exhaustion ([std::bad_alloc]) is not modelled. *)

From Stdlib Require Import ZArith List String Lia Bool.
From Stdlib.Strings Require Import Byte.
From Stdlib Require Import DecimalString.
Import ListNotations.

Local Open Scope string_scope.
Local Open Scope list_scope.
Local Open Scope Z_scope.

Set Implicit Arguments.

(** ** Outcomes of a C++ evaluation *)

Inductive outcome (A : Type) : Type :=
| Ok (a : A)
| Throw (what : string)
| Undefined.

Arguments Ok {A} a.
Arguments Throw {A} what.
Arguments Undefined {A}.

Definition bind {A B : Type} (m : outcome A) (k : A -> outcome B) : outcome B :=
  match m with
  | Ok a => k a
  | Throw w => Throw w
  | Undefined => Undefined
  end.

Notation "x <- m ;; k" := (bind m (fun x => k))
  (at level 61, m at next level, right associativity).
Notation "' p <- m ;; k" := (bind m (fun x => let 'p := x in k))
  (at level 61, p pattern, m at next level, right associativity).

Definition throws {A : Type} (m : outcome A) : Prop :=
  exists what, m = Throw what.

(** ** Raw memory: the file buffer *)

Definition buffer := list byte.

Definition u8 (b : byte) : Z := Z.of_N (Byte.to_N b).

(** The value a little-endian host loads from four consecutive bytes. *)
Definition le_u32 (b0 b1 b2 b3 : byte) : Z :=
  u8 b0 + 2^8 * u8 b1 + 2^16 * u8 b2 + 2^24 * u8 b3.

(** The value the IDX format assigns to four consecutive bytes. *)
Definition be_u32 (b0 b1 b2 b3 : byte) : Z :=
  2^24 * u8 b0 + 2^16 * u8 b1 + 2^8 * u8 b2 + u8 b3.

(** [*reinterpret_cast<uint32_t*>(buff.get() + off)]: defined only when the
    four bytes lie inside the allocation. *)
Definition load_u32 (buff : buffer) (off : nat) : outcome Z :=
  match skipn off buff with
  | b0 :: b1 :: b2 :: b3 :: _ => Ok (le_u32 b0 b1 b2 b3)
  | _ => Undefined
  end.

(** [__builtin_bswap32]: reverse the four bytes of a 32-bit word. *)
Definition bswap32 (x : Z) : Z :=
  Z.lor (Z.lor (Z.lor
    (Z.shiftl (Z.land x 0xFF) 24)
    (Z.shiftl (Z.land (Z.shiftr x 8) 0xFF) 16))
    (Z.shiftl (Z.land (Z.shiftr x 16) 0xFF) 8))
    (Z.land (Z.shiftr x 24) 0xFF).

(** The big-endian word at byte offset [off], as the file format defines it. *)
Definition be_u32_at (buff : buffer) (off : nat) : option Z :=
  match skipn off buff with
  | b0 :: b1 :: b2 :: b3 :: _ => Some (be_u32 b0 b1 b2 b3)
  | _ => None
  end.

(** ** The header *)

Inductive FileType : Type := IMAGE | LABEL.

(** The enumerators' underlying values: [IMAGE = 0x803], [LABEL = 0x801]. *)
Definition FileType_value (t : FileType) : Z :=
  match t with IMAGE => 0x803 | LABEL => 0x801 end.

Definition FileType_eqb (a b : FileType) : bool :=
  match a, b with
  | IMAGE, IMAGE | LABEL, LABEL => true
  | _, _ => false
  end.

Record Header : Type := mkHeader {
  ftype : FileType;
  n_dim : Z;
  dim_sizes : list Z
}.

(** The loop [for (i = 0u; i < n_dim_; i++)
      dim_sizes_.push_back(__builtin_bswap32( *file_cursor++))],
    with [cursor] the byte offset of [file_cursor] and [n] the iterations
    left. *)
Fixpoint read_dims (buff : buffer) (cursor : nat) (n : nat) : outcome (list Z) :=
  match n with
  | O => Ok []
  | S n' =>
      x <- load_u32 buff cursor ;;
      rest <- read_dims buff (cursor + 4) n' ;;
      Ok (bswap32 x :: rest)
  end.

Definition ReadHeader (buff : buffer) : outcome Header :=
  raw <- load_u32 buff 0 ;;
  let magic_num := bswap32 raw in
  let ftype_ := if magic_num =? 0x803 then IMAGE else LABEL in
  let n_dim_ := Z.land magic_num 0xFF in
  dims <- read_dims buff 4 (Z.to_nat n_dim_) ;;
  Ok (mkHeader ftype_ n_dim_ dims).

(** ** Reading a file: [ReadDataHelper] *)

(** The file system seen through [std::ifstream]: a path either cannot be
    opened or yields the whole content of the file. *)
Definition FileSystem := string -> option buffer.

Definition add_u32 (a b : Z) : Z := (a + b) mod 2^32.
Definition mul_u32 (a b : Z) : Z := (a * b) mod 2^32.

(** [std::accumulate(first, last, init, op)]. *)
Definition accumulate (l : list Z) (init : Z) (op : Z -> Z -> Z) : Z :=
  fold_left op l init.

Definition msg_open_failed (path : string) : string :=
  ("failed to open file from path: " ++ path)%string.
Definition msg_filetype : string :=
  "Inconsistency between the filetype read from path and the expected filetype!".
Definition msg_count_mismatch : string :=
  "Mismatch between number of images and labels".
Definition msg_null_shape : string := "Dataset null pointer!".
Definition msg_null_dataset : string := "Dataset pointer is null!".
Definition msg_out_of_bounds : string :=
  "Out of bounds index! Please, condider using a valid index!".

(** The range [header.dim_sizes.begin()+1 .. end()] exists only for a
    non-empty vector. *)
Definition ReadDataHelper (fs : FileSystem) (path : string)
    (expected_filetype : FileType) : outcome (buffer * Z * Header) :=
  match fs path with
  | None => Throw (msg_open_failed path)
  | Some buff =>
      header <- ReadHeader buff ;;
      if FileType_eqb (ftype header) expected_filetype then
        match dim_sizes header with
        | [] => Undefined
        | _ :: extents =>
            let image_size := accumulate extents 1 mul_u32 in
            Ok (buff, image_size, header)
        end
      else Throw msg_filetype
  end.

(** ** Payload readers *)

(** Reading the [n] elements of the range [[p, p + n)] where [p] is [off]
    bytes into the buffer. *)
Definition read_range (buff : buffer) (off n : nat) : outcome (list byte) :=
  if (off + n <=? List.length buff)%nat
  then Ok (firstn n (skipn off buff))
  else Undefined.

(** [buff.get() + 4u*(header.n_dim + 1)], as a byte offset. *)
Definition payload_offset (header : Header) : nat :=
  Z.to_nat (mul_u32 4 (add_u32 (n_dim header) 1)).

(** [header.dim_sizes[0]]. *)
Definition instance_count (header : Header) : outcome Z :=
  match dim_sizes header with
  | [] => Undefined
  | n :: _ => Ok n
  end.

(** The loop of [ReadImages<T>]: [emplace_back(buff_raw_ptr, buff_raw_ptr +
    image_size); buff_raw_ptr += image_size]. *)
Fixpoint read_images_loop (buff : buffer) (cursor image_size : nat) (count : nat)
  : outcome (list (list byte)) :=
  match count with
  | O => Ok []
  | S count' =>
      img <- read_range buff cursor image_size ;;
      rest <- read_images_loop buff (cursor + image_size) image_size count' ;;
      Ok (img :: rest)
  end.

(** [ReadImages<T>(path)] returning [std::vector<std::vector<T>>]. *)
Definition ReadImages (fs : FileSystem) (path : string)
  : outcome (list (list byte)) :=
  ' (buff, image_size, header) <- ReadDataHelper fs path IMAGE ;;
  count <- instance_count header ;;
  read_images_loop buff (payload_offset header) (Z.to_nat image_size)
                   (Z.to_nat count).

(** An element of a default-initialised [std::array<uint8_t, N>] holds an
    indeterminate value until it is written. *)
Inductive cell : Type :=
| Init (b : byte)
| Indeterminate.

(** [std::array<T, N>]; [size()] is the constant [N]. *)
Record std_array (N : nat) : Type := mkArray { cells : list cell }.

(** [std::array<T,N> img; std::copy_n(buff_raw_ptr, image_size, img.begin())]:
    writing more than [N] elements runs past the array. *)
Definition copy_n_into_array (N : nat) (buff : buffer) (cursor image_size : nat)
  : outcome (std_array N) :=
  src <- read_range buff cursor image_size ;;
  if (image_size <=? N)%nat
  then Ok (mkArray N (map Init src ++ repeat Indeterminate (N - image_size)))
  else Undefined.

Fixpoint read_arrays_loop (N : nat) (buff : buffer) (cursor image_size : nat)
    (count : nat) : outcome (list (std_array N)) :=
  match count with
  | O => Ok []
  | S count' =>
      img <- copy_n_into_array N buff cursor image_size ;;
      rest <- read_arrays_loop N buff (cursor + image_size) image_size count' ;;
      Ok (img :: rest)
  end.

(** [ReadImages<T, N>(path)] returning [std::vector<std::array<T, N>>]. *)
Definition ReadImagesArray (N : nat) (fs : FileSystem) (path : string)
  : outcome (list (std_array N)) :=
  ' (buff, image_size, header) <- ReadDataHelper fs path IMAGE ;;
  count <- instance_count header ;;
  read_arrays_loop N buff (payload_offset header) (Z.to_nat image_size)
                   (Z.to_nat count).

(** The loop of [ReadLabels]: [labels.push_back( *buff_raw_ptr);
    buff_raw_ptr++]. *)
Fixpoint read_labels_loop (buff : buffer) (cursor : nat) (count : nat)
  : outcome (list byte) :=
  match count with
  | O => Ok []
  | S count' =>
      match nth_error buff cursor with
      | None => Undefined
      | Some b =>
          rest <- read_labels_loop buff (cursor + 1) count' ;;
          Ok (b :: rest)
      end
  end.

Definition ReadLabels (fs : FileSystem) (path : string) : outcome (list byte) :=
  ' (buff, _, header) <- ReadDataHelper fs path LABEL ;;
  count <- instance_count header ;;
  read_labels_loop buff (payload_offset header) (Z.to_nat count).

(** ** Image containers

    [build_data_] selects the reader with [if constexpr] on the container
    type; [get_shape_] only uses the container's [size()]. *)

Class ImageContainer (C : Type) : Type := {
  container_size : C -> Z;
  read_images_as : FileSystem -> string -> outcome (list C)
}.

#[export] Instance vector_container : ImageContainer (list byte) := {
  container_size := fun v => Z.of_nat (List.length v);
  read_images_as := ReadImages
}.

#[export] Instance array_container (N : nat) : ImageContainer (std_array N) := {
  container_size := fun _ => Z.of_nat N;
  read_images_as := ReadImagesArray N
}.

(** ** Logging and exceptions inside the handler *)

Inductive Severity : Type := INFO | ERROR.

Definition LogEntry : Type := Severity * string.

(** A computation that may write to the log before it ends. *)
Definition logged (A : Type) : Type := outcome A * list LogEntry.

Definition lret {A : Type} (a : A) : logged A := (Ok a, []).
Definition lthrow {A : Type} (what : string) : logged A := (Throw what, []).
Definition lift {A : Type} (m : outcome A) : logged A := (m, []).
Definition LOG (sev : Severity) (text : string) : logged unit :=
  (Ok tt, [(sev, text)]).

Definition lbind {A B : Type} (m : logged A) (k : A -> logged B) : logged B :=
  match fst m with
  | Ok a => let r := k a in (fst r, snd m ++ snd r)
  | Throw w => (Throw w, snd m)
  | Undefined => (Undefined, snd m)
  end.

(** [try { m } catch (const std::exception& e) { h e.what() }]; undefined
    behaviour is not an exception. *)
Definition try_catch {A : Type} (m : logged A) (h : string -> logged A)
  : logged A :=
  match fst m with
  | Throw w => let r := h w in (fst r, snd m ++ snd r)
  | _ => m
  end.

Notation "x <-- m ;;; k" := (lbind m (fun x => k))
  (at level 61, m at next level, right associativity).
Notation "m ;;; k" := (lbind m (fun _ => k))
  (at level 61, right associativity).

(** ** The dataset and its handler *)

(** [struct Data<ImageContainer, LabelValueType>], with [LabelValueType =
    uint8_t]. *)
Record Data (C : Type) : Type := mkData {
  images : list C;
  labels : list byte
}.

(** [std::unique_ptr<DataSetType>]: [None] is [nullptr]. *)
Definition DataSetPtr (C : Type) : Type := option (Data C).

(** [std::array<std::array<std::size_t, 2>, 2>]. *)
Definition DataShape : Type := (Z * Z) * (Z * Z).

Record DataHandler (C : Type) : Type := mkDataHandler {
  m_datasetptr : DataSetPtr C;
  m_shape : DataShape
}.

Definition newline : string := String (Ascii.ascii_of_nat 10) EmptyString.

(** Streaming a [std::size_t] into the log. *)
Definition show_size (n : Z) : string :=
  NilZero.string_of_uint (N.to_uint (Z.to_N n)).

Section Handler.

Context {C : Type} `{ImageContainer C}.

Definition build_data_ (fs : FileSystem) (imgs_path labels_path : string)
  : logged (DataSetPtr C) :=
  try_catch
    (LOG INFO "Now reading images..." ;;;
     imgs <-- lift (read_images_as fs imgs_path) ;;;
     LOG INFO "Images read compeleted!" ;;;
     LOG INFO "Now reading labels..." ;;;
     lbls <-- lift (ReadLabels fs labels_path) ;;;
     LOG INFO "Labels read compeleted!" ;;;
     if negb (List.length imgs =? List.length lbls)%nat
     then lthrow msg_count_mismatch
     else lret (Some (mkData imgs lbls)))
    (fun what =>
       LOG ERROR ("Error in build_data_: " ++ what)%string ;;;
       lret None).

(** [get_shape_], evaluated on the already initialised [m_datasetptr].
    [images[0]] on an empty vector is outside the vector. *)
Definition get_shape_ (ptr : DataSetPtr C) : outcome DataShape :=
  match ptr with
  | None => Throw msg_null_shape
  | Some d =>
      match images d with
      | [] => Undefined
      | img0 :: _ =>
          Ok ((Z.of_nat (List.length (images d)), container_size img0),
              (Z.of_nat (List.length (labels d)), 1))
      end
  end.

(** [explicit DataHandler(DataSetPtr datasetptr)]: the members are
    initialised in declaration order, [m_datasetptr] then [m_shape]. *)
Definition DataHandler_of_ptr (datasetptr : DataSetPtr C)
  : outcome (DataHandler C) :=
  shape <- get_shape_ datasetptr ;;
  Ok (mkDataHandler datasetptr shape).

(** [DataHandler(const std::string&, const std::string&)]. *)
Definition DataHandler_of_paths (fs : FileSystem)
    (images_path labels_path : string) : logged (DataHandler C) :=
  ptr <-- build_data_ fs images_path labels_path ;;;
  lift (DataHandler_of_ptr ptr).

(** [Data()], named [get_Data] to keep it apart from the structure. *)
Definition get_Data (h : DataHandler C) : outcome (Data C) :=
  match m_datasetptr h with
  | None => Throw msg_null_dataset
  | Some d => Ok d
  end.

(** What [PrintShape] writes to [std::cout]. *)
Definition PrintShape (h : DataHandler C) : string :=
  let '((i0, i1), (l0, l1)) := m_shape h in
  ("Images shape: (" ++ show_size i0 ++ ", " ++ show_size i1 ++ ")" ++ newline
 ++ "Labels shape: (" ++ show_size l0 ++ ", " ++ show_size l1 ++ ")" ++ newline)%string.

(** [v[index]] for a [std::vector]: outside the vector when
    [index >= v.size()]. *)
Definition vector_at {A : Type} (v : list A) (index : Z) : outcome A :=
  match nth_error v (Z.to_nat index) with
  | Some a => Ok a
  | None => Undefined
  end.

Definition GetDatasetInstance (h : DataHandler C) (index : Z)
  : logged (C * byte) :=
  if index >=? fst (fst (m_shape h)) then
    LOG ERROR ("Out of bound value index! Index should be less than: "
               ++ show_size (fst (fst (m_shape h))))%string ;;;
    lthrow msg_out_of_bounds
  else
    match m_datasetptr h with
    | None => lthrow msg_null_dataset
    | Some d =>
        img <-- lift (vector_at (images d) index) ;;;
        lbl <-- lift (vector_at (labels d) index) ;;;
        lret (img, lbl)
    end.

End Handler.

(** ** Synthetic files used in the examples *)

Definition b (n : N) : byte :=
  match Byte.of_N n with Some x => x | None => x00 end.

(** An image file: 3 instances of 2 x 2 pixels. *)
Definition image_file_3x2x2 : buffer :=
  map b [0;0;8;3;  0;0;0;3;  0;0;0;2;  0;0;0;2;
         11;12;13;14;  21;22;23;24;  31;32;33;34]%N.

(** Label files with 3, 2 and 1 entries. *)
Definition label_file_3 : buffer := map b [0;0;8;1;  0;0;0;3;  7;8;9]%N.
Definition label_file_2 : buffer := map b [0;0;8;1;  0;0;0;2;  7;8]%N.
Definition label_file_1 : buffer := map b [0;0;8;1;  0;0;0;1;  7]%N.

(** A file whose magic word is neither of the two recognised values. *)
Definition odd_magic_file : buffer := map b [0;0;13;2;  0;0;0;5;  0;0;0;6]%N.

(** Files that announce no instance at all. *)
Definition image_file_empty : buffer :=
  map b [0;0;8;3;  0;0;0;0;  0;0;0;2;  0;0;0;2]%N.
Definition label_file_empty : buffer := map b [0;0;8;1;  0;0;0;0]%N.

Definition test_fs : FileSystem := fun path =>
  if String.eqb path "images" then Some image_file_3x2x2
  else if String.eqb path "labels" then Some label_file_3
  else if String.eqb path "labels1" then Some label_file_1
  else if String.eqb path "labels2" then Some label_file_2
  else if String.eqb path "no-images" then Some image_file_empty
  else if String.eqb path "no-labels" then Some label_file_empty
  else None.

(** The three images of [image_file_3x2x2] and the handler built over them. *)
Definition images_3x2x2 : list (list byte) :=
  [map b [11;12;13;14]; map b [21;22;23;24]; map b [31;32;33;34]]%N.

Definition handler_3x2x2 : DataHandler (list byte) :=
  mkDataHandler (Some (mkData images_3x2x2 (map b [7;8;9]%N)))
                ((3, 4), (3, 1)).

(** A dataset put together by hand, with three images and a single label. *)
Definition dataset_3_images_1_label : Data (list byte) :=
  mkData images_3x2x2 [b 7].

(** A 65536 x 65536 image, one instance: a 16-byte header followed by
    [2^32] payload bytes. *)
Definition wide_image_header : buffer :=
  map b [0;0;8;3;  0;0;0;1;  0;1;0;0;  0;1;0;0]%N.

Definition wide_image_file : buffer :=
  wide_image_header ++ repeat x00 (Z.to_nat 4294967296).

(** ** Vocabulary of the properties *)

(** The size in bytes of the header a buffer declares: 4 for the magic word
    plus 4 per dimension, the dimension count being the low byte of the magic
    word.  There is none when the buffer cannot hold the magic word. *)
Definition declared_header_size (buff : buffer) : option nat :=
  match be_u32_at buff 0 with
  | Some magic => Some (4 + 4 * Z.to_nat (Z.land magic 0xFF))%nat
  | None => None
  end.

(** A buffer shorter than the header it declares. *)
Definition truncated_header (buff : buffer) : Prop :=
  match declared_header_size buff with
  | Some n => (List.length buff < n)%nat
  | None => True
  end.

(** The slot of record number [i] in a payload that starts [start] bytes into
    the buffer and is cut into records of [record_size] bytes. *)
Definition record_at (buff : buffer) (start record_size i : nat) : list byte :=
  firstn record_size (skipn (start + i * record_size) buff).

(** The product of a list of extents, in unbounded arithmetic. *)
Definition product (extents : list Z) : Z := fold_right Z.mul 1 extents.

(** The failure of a build carries the two counts when they can be read back
    from what [build_data_] returns and logs. *)
Definition mismatch_carries_counts (C : Type) `{ImageContainer C} : Prop :=
  exists counts_of : logged (DataSetPtr C) -> nat * nat,
    forall fs imgs_path labels_path imgs lbls,
      read_images_as fs imgs_path = Ok imgs ->
      ReadLabels fs labels_path = Ok lbls ->
      List.length imgs <> List.length lbls ->
      counts_of (build_data_ fs imgs_path labels_path)
      = (List.length imgs, List.length lbls).

Arguments mismatch_carries_counts C {_}.

(** The handlers that exist: the results of the two constructors. *)
Inductive constructed {C : Type} `{ImageContainer C} : DataHandler C -> Prop :=
| constructed_of_ptr (datasetptr : DataSetPtr C) (h : DataHandler C) :
    DataHandler_of_ptr datasetptr = Ok h -> constructed h
| constructed_of_paths (fs : FileSystem) (images_path labels_path : string)
    (h : DataHandler C) :
    fst (DataHandler_of_paths fs images_path labels_path) = Ok h ->
    constructed h.

(** The handlers over a dataset in which every image has its label: those
    built from two files, where [build_data_] has compared the two sizes, and
    those built over a dataset that already satisfies
    [images.size() == labels.size()].  The constructor that takes a dataset
    does not check this; the second case assumes it, so these are fewer
    handlers than [constructed]. *)
Inductive successfully_built {C : Type} `{ImageContainer C}
  : DataHandler C -> Prop :=
| built_of_paths (fs : FileSystem) (images_path labels_path : string)
    (h : DataHandler C) :
    fst (DataHandler_of_paths fs images_path labels_path) = Ok h ->
    successfully_built h
| built_of_dataset (d : Data C) (h : DataHandler C) :
    List.length (images d) = List.length (labels d) ->
    DataHandler_of_ptr (Some d) = Ok h ->
    successfully_built h.

(** ** The executable

    [main] of the shipped program, after the set-up of flags and logging:
    the [try] block builds a handler over [std::array<uint8_t, 784>] images,
    takes [Data()], prints the shape and fetches instance 600; any exception
    is logged and turned into [EXIT_FAILURE]. *)

Definition EXIT_SUCCESS : Z := 0.
Definition EXIT_FAILURE : Z := 1.

(** The exit status and the log. *)
Definition main (fs : FileSystem) (abs_img_path abs_lbl_path : string)
  : logged Z :=
  try_catch
    (LOG INFO "Initializing Datahandler..." ;;;
     handler <-- DataHandler_of_paths (C := std_array 784)
                   fs abs_img_path abs_lbl_path ;;;
     LOG INFO "Datahandler successfully initialized!" ;;;
     data <-- lift (get_Data handler) ;;;
     data_instance <-- GetDatasetInstance handler 600 ;;;
     lret EXIT_SUCCESS)
    (fun what =>
       LOG ERROR ("Error initializing DataHandler: " ++ what)%string ;;;
       lret EXIT_FAILURE).

(** What [main] has written to [std::cout] when it ends: the two lines of
    [PrintShape], once the handler exists and [Data()] has returned. *)
Definition main_stdout (fs : FileSystem) (abs_img_path abs_lbl_path : string)
  : string :=
  match fst (DataHandler_of_paths (C := std_array 784)
               fs abs_img_path abs_lbl_path) with
  | Ok handler =>
      match get_Data handler with
      | Ok _ => PrintShape handler
      | _ => EmptyString
      end
  | _ => EmptyString
  end.

(** The [std::array<uint8_t, N>] that [ReadImages<T, N>] makes of one record:
    the record's bytes, then elements never written. *)
Definition array_of_record (N : nat) (img : list byte) : std_array N :=
  mkArray N (map Init img ++ repeat Indeterminate (N - List.length img)).

(** An MNIST-sized image file with [count] instances of 28 x 28 pixels, every
    pixel [px]. *)
Definition mnist_image_file (count : nat) (px : byte) : buffer :=
  map b [0;0;8;3;  0;0]%N
  ++ [b (N.of_nat (count / 256)); b (N.of_nat (count mod 256))]
  ++ map b [0;0;0;28;  0;0;0;28]%N
  ++ repeat px (count * 784).

Definition mnist_label_file (count : nat) (lbl : byte) : buffer :=
  map b [0;0;8;1;  0;0]%N
  ++ [b (N.of_nat (count / 256)); b (N.of_nat (count mod 256))]
  ++ repeat lbl count.

(** ** Proof steps used throughout *)

(** Case analysis on the four bytes a word load looks at. *)
Ltac four_bytes buff off :=
  destruct (skipn off buff) as [|?b0 [|?b1 [|?b2 [|?b3 ?r]]]].

(** Unfolding the logging layer down to pairs. *)
Ltac run_logged := unfold try_catch, lbind, lift, LOG, lret, lthrow.

(** ** Byte-order facts *)

Lemma u8_range (b : byte) : 0 <= u8 b < 256.
Proof.
  unfold u8. pose proof (Byte.to_N_bounded b) as H. lia.
Qed.

Lemma low_byte (x : Z) : Z.land x 255 = x mod 256.
Proof. exact (Z.land_ones x 8 ltac:(lia)). Qed.

Lemma lor_disjoint_add (hi lo : Z) (k : Z) :
  0 <= k -> 0 <= lo < 2^k -> Z.lor (hi * 2^k) lo = hi * 2^k + lo.
Proof.
  intros Hk Hlo.
  assert (Hdisj : Z.land (hi * 2^k) lo = 0).
  { rewrite <- Z.shiftl_mul_pow2 by assumption.
    apply Z.bits_inj'. intros n Hn.
    rewrite Z.land_spec, Z.bits_0.
    destruct (Z.lt_ge_cases n k) as [Hlt | Hge].
    - rewrite Z.shiftl_spec_low by assumption. reflexivity.
    - rewrite andb_comm.
      destruct (Z.eq_dec lo 0) as [-> | Hne].
      + rewrite Z.bits_0. reflexivity.
      + rewrite Z.bits_above_log2; [reflexivity | lia |].
        apply Z.lt_le_trans with k; [apply Z.log2_lt_pow2; lia | assumption]. }
  rewrite <- Z.lxor_lor by assumption.
  symmetry. apply Z.add_nocarry_lxor. assumption.
Qed.

Lemma bswap32_bytes (a b c d : Z) :
  0 <= a < 256 -> 0 <= b < 256 -> 0 <= c < 256 -> 0 <= d < 256 ->
  bswap32 (a + 2^8 * b + 2^16 * c + 2^24 * d)
  = 2^24 * a + 2^16 * b + 2^8 * c + d.
Proof.
  intros Ha Hb Hc Hd. unfold bswap32.
  change (2^8) with 256. change (2^16) with 65536. change (2^24) with 16777216.
  set (x := a + 256 * b + 65536 * c + 16777216 * d).
  assert (E0 : Z.land x 255 = a).
  { rewrite low_byte. subst x.
    symmetry. apply (Z.mod_unique _ _ (b + 256 * c + 65536 * d)); lia. }
  assert (E1 : Z.land (Z.shiftr x 8) 255 = b).
  { rewrite low_byte, Z.shiftr_div_pow2 by lia. subst x. change (2^8) with 256.
    replace ((a + 256 * b + 65536 * c + 16777216 * d) / 256)
      with (b + 256 * c + 65536 * d).
    - symmetry. apply (Z.mod_unique _ _ (c + 256 * d)); lia.
    - apply (Z.div_unique _ _ _ a); lia. }
  assert (E2 : Z.land (Z.shiftr x 16) 255 = c).
  { rewrite low_byte, Z.shiftr_div_pow2 by lia. subst x. change (2^16) with 65536.
    replace ((a + 256 * b + 65536 * c + 16777216 * d) / 65536)
      with (c + 256 * d).
    - symmetry. apply (Z.mod_unique _ _ d); lia.
    - apply (Z.div_unique _ _ _ (a + 256 * b)); lia. }
  assert (E3 : Z.land (Z.shiftr x 24) 255 = d).
  { rewrite low_byte, Z.shiftr_div_pow2 by lia. subst x. change (2^24) with 16777216.
    replace ((a + 256 * b + 65536 * c + 16777216 * d) / 16777216) with d.
    - apply Z.mod_small; lia.
    - apply (Z.div_unique _ _ _ (a + 256 * b + 65536 * c)); lia. }
  rewrite E0, E1, E2, E3.
  rewrite !Z.shiftl_mul_pow2 by lia.
  rewrite (@lor_disjoint_add a (b * 2^16) 24) by lia.
  replace (a * 2^24 + b * 2^16) with ((a * 256 + b) * 2^16) by lia.
  rewrite (@lor_disjoint_add (a * 256 + b) (c * 2^8) 16) by lia.
  replace ((a * 256 + b) * 2^16 + c * 2^8) with ((a * 65536 + b * 256 + c) * 2^8) by lia.
  rewrite (@lor_disjoint_add (a * 65536 + b * 256 + c) d 8) by lia.
  lia.
Qed.

(** On a little-endian host, byte-swapping the loaded word yields the
    big-endian reading of the same four bytes. *)
Lemma bswap32_le_u32 (b0 b1 b2 b3 : byte) :
  bswap32 (le_u32 b0 b1 b2 b3) = be_u32 b0 b1 b2 b3.
Proof.
  unfold le_u32, be_u32.
  apply bswap32_bytes; apply u8_range.
Qed.

Lemma be_u32_range (b0 b1 b2 b3 : byte) : 0 <= be_u32 b0 b1 b2 b3 < 2^32.
Proof.
  unfold be_u32.
  pose proof (u8_range b0). pose proof (u8_range b1).
  pose proof (u8_range b2). pose proof (u8_range b3).
  change (2^8) with 256. change (2^16) with 65536.
  change (2^24) with 16777216. change (2^32) with 4294967296. lia.
Qed.

Lemma be_u32_low_byte (b0 b1 b2 b3 : byte) :
  Z.land (be_u32 b0 b1 b2 b3) 255 = u8 b3.
Proof.
  rewrite low_byte. unfold be_u32.
  pose proof (u8_range b0). pose proof (u8_range b1).
  pose proof (u8_range b2). pose proof (u8_range b3).
  change (2^8) with 256. change (2^16) with 65536. change (2^24) with 16777216.
  symmetry.
  apply (Z.mod_unique _ _ (65536 * u8 b0 + 256 * u8 b1 + u8 b2)); lia.
Qed.

(** ** Loads from the buffer *)

Lemma be_u32_at_Some (buff : buffer) (off : nat) :
  (off + 4 <= List.length buff)%nat -> exists v, be_u32_at buff off = Some v.
Proof.
  intros Hlen. unfold be_u32_at.
  pose proof (length_skipn off buff) as Hs.
  four_bytes buff off; simpl in Hs; try lia.
  eexists. reflexivity.
Qed.

Lemma be_u32_at_None (buff : buffer) (off : nat) :
  (List.length buff < off + 4)%nat -> be_u32_at buff off = None.
Proof.
  intros Hlen. unfold be_u32_at.
  pose proof (length_skipn off buff) as Hs.
  four_bytes buff off; simpl in Hs;
    try reflexivity; lia.
Qed.

Lemma be_u32_at_range (buff : buffer) (off : nat) (v : Z) :
  be_u32_at buff off = Some v -> 0 <= v < 2^32.
Proof.
  unfold be_u32_at.
  four_bytes buff off; try discriminate.
  intros [= <-]. apply be_u32_range.
Qed.

(** A load followed by the byte swap reads the big-endian word, and is
    undefined exactly where the buffer has no such word. *)
Lemma load_u32_bswap (buff : buffer) (off : nat) :
  bind (load_u32 buff off) (fun x => Ok (bswap32 x))
  = match be_u32_at buff off with
    | Some v => Ok v
    | None => Undefined
    end.
Proof.
  unfold load_u32, be_u32_at.
  four_bytes buff off; try reflexivity.
  simpl. rewrite bswap32_le_u32. reflexivity.
Qed.

Lemma load_u32_Some (buff : buffer) (off : nat) (v : Z) :
  be_u32_at buff off = Some v ->
  exists x, load_u32 buff off = Ok x /\ bswap32 x = v.
Proof.
  intros Hv. pose proof (load_u32_bswap buff off) as H. rewrite Hv in H.
  destruct (load_u32 buff off) as [x| |]; try discriminate.
  exists x. split; [reflexivity | now inversion H].
Qed.

Lemma load_u32_None (buff : buffer) (off : nat) :
  be_u32_at buff off = None -> load_u32 buff off = Undefined.
Proof.
  intros Hv. pose proof (load_u32_bswap buff off) as H. rewrite Hv in H.
  destruct (load_u32 buff off) as [x| |]; try discriminate. reflexivity.
Qed.

Lemma load_u32_no_throw (buff : buffer) (off : nat) (w : string) :
  load_u32 buff off <> Throw w.
Proof.
  unfold load_u32.
  four_bytes buff off; discriminate.
Qed.

(** ** The dimension loop *)

Lemma read_dims_ok (buff : buffer) (n cursor : nat) :
  (cursor + 4 * n <= List.length buff)%nat ->
  exists dims,
    read_dims buff cursor n = Ok dims /\
    List.length dims = n /\
    forall k, (k < n)%nat ->
      nth_error dims k = be_u32_at buff (cursor + 4 * k).
Proof.
  revert cursor. induction n as [|n IH]; intros cursor Hlen.
  - exists []. repeat split; intros; lia.
  - destruct (be_u32_at_Some buff cursor ltac:(lia)) as [v Hv].
    destruct (load_u32_Some _ _ Hv) as [x [Hx Hsw]].
    destruct (IH (cursor + 4)%nat ltac:(lia)) as [rest [Hr [Hl Hk]]].
    exists (v :: rest). simpl. rewrite Hx. simpl. rewrite Hr. simpl.
    rewrite Hsw. repeat split.
    + now rewrite Hl.
    + intros [|k] Hlt; simpl.
      * now rewrite Nat.add_0_r.
      * rewrite Hk by lia. f_equal. lia.
Qed.

Lemma read_dims_short (buff : buffer) (n cursor : nat) :
  (cursor <= List.length buff)%nat ->
  (List.length buff < cursor + 4 * n)%nat ->
  read_dims buff cursor n = Undefined.
Proof.
  revert cursor. induction n as [|n IH]; intros cursor Hc Hlen; [lia|].
  simpl. destruct (Nat.le_gt_cases (cursor + 4) (List.length buff)) as [Hin | Hout].
  - destruct (be_u32_at_Some buff cursor Hin) as [v Hv].
    destruct (load_u32_Some _ _ Hv) as [x [Hx _]].
    rewrite Hx. simpl. rewrite IH by lia. reflexivity.
  - rewrite (load_u32_None _ _ (be_u32_at_None _ _ Hout)). reflexivity.
Qed.

Lemma read_dims_no_throw (buff : buffer) (n cursor : nat) (w : string) :
  read_dims buff cursor n <> Throw w.
Proof.
  revert cursor. induction n as [|n IH]; intros cursor; simpl; [discriminate|].
  pose proof (@load_u32_no_throw buff cursor w) as Hl.
  destruct (load_u32 buff cursor) as [x|w'|]; simpl; try discriminate.
  - specialize (IH (cursor + 4)%nat).
    destruct (read_dims buff (cursor + 4) n) as [r|w''|]; simpl;
      try discriminate.
    intros [= ->]. now apply IH.
  - intros [= ->]. now apply Hl.
Qed.

(** ** [ReadHeader] *)

Lemma ReadHeader_ok (buff : buffer) (magic : Z) :
  be_u32_at buff 0 = Some magic ->
  (4 + 4 * Z.to_nat (Z.land magic 255) <= List.length buff)%nat ->
  exists dims,
    ReadHeader buff
    = Ok (mkHeader (if magic =? 2051 then IMAGE else LABEL)
                   (Z.land magic 255) dims) /\
    List.length dims = Z.to_nat (Z.land magic 255) /\
    forall k, (k < Z.to_nat (Z.land magic 255))%nat ->
      nth_error dims k = be_u32_at buff (4 + 4 * k).
Proof.
  intros Hm Hlen.
  destruct (load_u32_Some _ _ Hm) as [x [Hx Hsw]].
  destruct (@read_dims_ok buff (Z.to_nat (Z.land magic 255)) 4 Hlen)
    as [dims [Hd [Hl Hk]]].
  exists dims. unfold ReadHeader. rewrite Hx. simpl. rewrite Hsw, Hd. simpl.
  auto.
Qed.

Lemma ReadHeader_truncated (buff : buffer) :
  truncated_header buff -> ReadHeader buff = Undefined.
Proof.
  unfold truncated_header, declared_header_size, ReadHeader.
  destruct (be_u32_at buff 0) as [magic|] eqn:Hm; intros Hshort.
  - destruct (load_u32_Some _ _ Hm) as [x [Hx Hsw]].
    rewrite Hx. simpl. rewrite Hsw.
    rewrite read_dims_short; [reflexivity | | assumption].
    destruct (Nat.le_gt_cases 4 (List.length buff)) as [Hge | Hlt]; [assumption|].
    rewrite be_u32_at_None in Hm by (simpl; lia). discriminate.
  - rewrite (load_u32_None _ _ Hm). reflexivity.
Qed.

Lemma ReadHeader_no_throw (buff : buffer) (w : string) :
  ReadHeader buff <> Throw w.
Proof.
  unfold ReadHeader.
  pose proof (@load_u32_no_throw buff 0 w) as Hl.
  destruct (load_u32 buff 0) as [x|w'|]; simpl; try discriminate.
  - pose proof (@read_dims_no_throw buff
                  (Z.to_nat (Z.land (bswap32 x) 255)) 4 w) as Hd.
    destruct (read_dims buff 4 _) as [r|w''|]; simpl; try discriminate.
    intros [= ->]. now apply Hd.
  - intros [= ->]. now apply Hl.
Qed.

(** ** The synthetic files, run through the readers *)

Example ReadHeader_image_file :
  ReadHeader image_file_3x2x2 = Ok (mkHeader IMAGE 3 [3; 2; 2]).
Proof. vm_compute. reflexivity. Qed.

Example ReadImages_image_file :
  ReadImages test_fs "images"
  = Ok [map b [11;12;13;14]; map b [21;22;23;24]; map b [31;32;33;34]]%N.
Proof. vm_compute. reflexivity. Qed.

Example ReadLabels_label_file :
  ReadLabels test_fs "labels" = Ok (map b [7;8;9]%N).
Proof. vm_compute. reflexivity. Qed.

Example build_ok :
  fst (build_data_ (C := list byte) test_fs "images" "labels")
  = Ok (Some (mkData
      [map b [11;12;13;14]; map b [21;22;23;24]; map b [31;32;33;34]]%N
      (map b [7;8;9]%N))).
Proof. vm_compute. reflexivity. Qed.

Example build_mismatch :
  build_data_ (C := list byte) test_fs "images" "labels2"
  = (Ok None,
     [(INFO, "Now reading images..."); (INFO, "Images read compeleted!");
      (INFO, "Now reading labels..."); (INFO, "Labels read compeleted!");
      (ERROR, "Error in build_data_: Mismatch between number of images and labels")]).
Proof. vm_compute. reflexivity. Qed.

Example handler_wrong_kind :
  fst (DataHandler_of_paths (C := list byte) test_fs "labels" "labels")
  = Throw msg_null_shape.
Proof. vm_compute. reflexivity. Qed.

Example ReadImagesArray_exact :
  ReadImagesArray 4 test_fs "images"
  = Ok (map (fun img => mkArray 4 (map Init img)) images_3x2x2).
Proof. vm_compute. reflexivity. Qed.

Example ReadImagesArray_wider :
  ReadImagesArray 5 test_fs "images"
  = Ok (map (fun img => mkArray 5 (map Init img ++ [Indeterminate]))
            images_3x2x2).
Proof. vm_compute. reflexivity. Qed.

Example ReadImagesArray_narrower :
  ReadImagesArray 3 test_fs "images" = Undefined.
Proof. vm_compute. reflexivity. Qed.

Example handler_3x2x2_built :
  DataHandler_of_paths test_fs "images" "labels"
  = (Ok handler_3x2x2,
     [(INFO, "Now reading images..."); (INFO, "Images read compeleted!");
      (INFO, "Now reading labels..."); (INFO, "Labels read compeleted!")]).
Proof. vm_compute. reflexivity. Qed.

Example handler_3x2x2_prints :
  PrintShape handler_3x2x2
  = ("Images shape: (3, 4)" ++ newline ++ "Labels shape: (3, 1)" ++ newline)%string.
Proof. vm_compute. reflexivity. Qed.

(** ** The header decoder: file kind, dimensions, short buffers *)

(** C3. Whenever the buffer holds the header it declares, the file kind is
    read off the big-endian magic word: [0x00000803] gives [IMAGE],
    [0x00000801] gives [LABEL], and every other magic value gives [LABEL] as
    well (the fallback of the conditional expression). *)
Theorem ReadHeader_file_kind (buff : buffer) (magic : Z) :
  be_u32_at buff 0 = Some magic ->
  (4 + 4 * Z.to_nat (Z.land magic 0xFF) <= List.length buff)%nat ->
  exists header,
    ReadHeader buff = Ok header /\
    (magic = 0x803 -> ftype header = IMAGE) /\
    (magic = 0x801 -> ftype header = LABEL) /\
    (magic <> 0x803 -> ftype header = LABEL).
Proof.
  intros Hm Hlen.
  destruct (ReadHeader_ok buff Hm Hlen) as [dims [Hh _]].
  eexists. split; [exact Hh|]. simpl.
  repeat split.
  - intros ->. reflexivity.
  - intros ->. reflexivity.
  - intros Hne. destruct (Z.eqb_spec magic 2051); [contradiction | reflexivity].
Qed.

Lemma ReadHeader_file_kind_witness :
  exists header,
    ReadHeader odd_magic_file = Ok header /\
    (0xD02 = 0x803 -> ftype header = IMAGE) /\
    (0xD02 = 0x801 -> ftype header = LABEL) /\
    (0xD02 <> 0x803 -> ftype header = LABEL).
Proof.
  apply (@ReadHeader_file_kind odd_magic_file 0xD02).
  - reflexivity.
  - vm_compute. lia.
Defined.

(** C5. For a buffer whose magic word has dimension count [N >= 1] in its low
    byte and which holds the [N] following words, the decoded header has
    [n_dim = N], exactly [N] dimension sizes, and the size number [k] is the
    big-endian word at byte offset [4 + 4k]. *)
Theorem ReadHeader_dimensions (buff : buffer) (magic N : Z) :
  be_u32_at buff 0 = Some magic ->
  Z.land magic 0xFF = N ->
  1 <= N ->
  4 + 4 * N <= Z.of_nat (List.length buff) ->
  exists header,
    ReadHeader buff = Ok header /\
    n_dim header = N /\
    Z.of_nat (List.length (dim_sizes header)) = N /\
    forall k, 0 <= k < N ->
      exists v,
        be_u32_at buff (Z.to_nat (4 + 4 * k)) = Some v /\
        nth_error (dim_sizes header) (Z.to_nat k) = Some v.
Proof.
  intros Hm HN Hpos Hlen.
  assert (Hlen' : (4 + 4 * Z.to_nat (Z.land magic 255) <= List.length buff)%nat)
    by lia.
  destruct (ReadHeader_ok buff Hm Hlen') as [dims [Hh [Hl Hk]]].
  eexists. split; [exact Hh|]. simpl. rewrite HN in *.
  repeat split.
  - lia.
  - intros k Hk'.
    destruct (be_u32_at_Some buff (Z.to_nat (4 + 4 * k)) ltac:(lia)) as [v Hv].
    exists v. split; [assumption|].
    rewrite Hk by lia. rewrite <- Hv. f_equal. lia.
Qed.

Lemma ReadHeader_dimensions_witness :
  exists header,
    ReadHeader image_file_3x2x2 = Ok header /\
    n_dim header = 3 /\
    Z.of_nat (List.length (dim_sizes header)) = 3 /\
    forall k, 0 <= k < 3 ->
      exists v,
        be_u32_at image_file_3x2x2 (Z.to_nat (4 + 4 * k)) = Some v /\
        nth_error (dim_sizes header) (Z.to_nat k) = Some v.
Proof.
  apply (@ReadHeader_dimensions image_file_3x2x2 0x803 3).
  - reflexivity.
  - reflexivity.
  - lia.
  - vm_compute. discriminate.
Defined.

(** C4, as the source behaves.  A buffer shorter than the header it declares
    makes [ReadHeader] load outside the buffer: the outcome is undefined
    behaviour, and no exception is thrown. *)
Theorem ReadHeader_truncated_is_undefined (buff : buffer) :
  truncated_header buff ->
  ReadHeader buff = Undefined /\ ~ throws (ReadHeader buff).
Proof.
  intros Hshort. split.
  - now apply ReadHeader_truncated.
  - intros [w Hw]. exact (@ReadHeader_no_throw buff w Hw).
Qed.

Lemma ReadHeader_truncated_is_undefined_witness :
  ReadHeader (map b [0;0;8;3;  0;0;0;3]%N) = Undefined /\
  ~ throws (ReadHeader (map b [0;0;8;3;  0;0;0;3]%N)).
Proof.
  apply ReadHeader_truncated_is_undefined.
  vm_compute. lia.
Defined.

(** C4, as stated, fails on the one-byte buffer: it is shorter than any
    header, and decoding it raises no error. *)
Lemma ReadHeader_one_byte_not_rejected :
  truncated_header [x00] /\
  ReadHeader [x00] = Undefined /\
  ~ throws (ReadHeader [x00]).
Proof.
  split; [exact I|]. split; [reflexivity|].
  intros [w Hw]. discriminate Hw.
Qed.

(** ** The payload readers *)

Lemma read_range_ok (buff : buffer) (off n : nat) :
  (off + n <= List.length buff)%nat ->
  read_range buff off n = Ok (firstn n (skipn off buff)).
Proof.
  intros Hlen. unfold read_range.
  destruct (Nat.leb_spec (off + n) (List.length buff)); [reflexivity | lia].
Qed.

Lemma read_images_loop_ok (buff : buffer) (image_size count cursor : nat) :
  (cursor + count * image_size <= List.length buff)%nat ->
  read_images_loop buff cursor image_size count
  = Ok (map (record_at buff cursor image_size) (seq 0 count)).
Proof.
  revert cursor. induction count as [|count IH]; intros cursor Hlen.
  - reflexivity.
  - cbn [read_images_loop].
    rewrite read_range_ok by lia. cbn [bind].
    rewrite IH by lia. cbn [bind seq map].
    unfold record_at at 2. rewrite Nat.add_0_r.
    rewrite <- seq_shift, map_map.
    do 2 f_equal. apply map_ext. intros i.
    unfold record_at. do 2 f_equal. lia.
Qed.

Lemma skipn_nth_error_cons {A : Type} (l : list A) (n : nat) (x : A) :
  nth_error l n = Some x -> skipn n l = x :: skipn (S n) l.
Proof.
  revert l. induction n as [|n IH]; intros [|y l] Hx; try discriminate.
  - now inversion Hx.
  - cbn in Hx. cbn [skipn]. rewrite (IH l Hx). reflexivity.
Qed.

Lemma read_labels_loop_ok (buff : buffer) (count cursor : nat) :
  (cursor + count <= List.length buff)%nat ->
  read_labels_loop buff cursor count = Ok (firstn count (skipn cursor buff)).
Proof.
  revert cursor. induction count as [|count IH]; intros cursor Hlen.
  - reflexivity.
  - cbn [read_labels_loop].
    destruct (nth_error buff cursor) as [x|] eqn:Hx.
    + rewrite IH by lia. cbn [bind].
      rewrite (skipn_nth_error_cons _ _ Hx). cbn [firstn].
      rewrite Nat.add_1_r. reflexivity.
    + apply nth_error_None in Hx. lia.
Qed.

Lemma ReadDataHelper_ok (fs : FileSystem) (path : string) (buff : buffer)
    (header : Header) (count : Z) (extents : list Z) :
  fs path = Some buff ->
  ReadHeader buff = Ok header ->
  dim_sizes header = count :: extents ->
  ReadDataHelper fs path (ftype header)
  = Ok (buff, accumulate extents 1 mul_u32, header).
Proof.
  intros Hfs Hh Hd. unfold ReadDataHelper. rewrite Hfs, Hh. cbn [bind].
  rewrite Hd. destruct (ftype header); reflexivity.
Qed.

(** Where the payload fits in the buffer, [ReadImages] returns the records
    in file order, each the verbatim bytes of its slot. *)
Lemma ReadImages_ok (fs : FileSystem) (path : string) (buff : buffer)
    (header : Header) (count : Z) (extents : list Z) :
  fs path = Some buff ->
  ReadHeader buff = Ok header ->
  ftype header = IMAGE ->
  dim_sizes header = count :: extents ->
  (payload_offset header
   + Z.to_nat count * Z.to_nat (accumulate extents 1 mul_u32)
   <= List.length buff)%nat ->
  ReadImages fs path
  = Ok (map (record_at buff (payload_offset header)
               (Z.to_nat (accumulate extents 1 mul_u32)))
            (seq 0 (Z.to_nat count))).
Proof.
  intros Hfs Hh Hk Hd Hlen. unfold ReadImages.
  rewrite <- Hk. rewrite (ReadDataHelper_ok fs path Hfs Hh Hd). cbn [bind].
  unfold instance_count. rewrite Hd. cbn [bind].
  now apply read_images_loop_ok.
Qed.

Lemma ReadLabels_ok (fs : FileSystem) (path : string) (buff : buffer)
    (header : Header) (count : Z) (extents : list Z) :
  fs path = Some buff ->
  ReadHeader buff = Ok header ->
  ftype header = LABEL ->
  dim_sizes header = count :: extents ->
  (payload_offset header + Z.to_nat count <= List.length buff)%nat ->
  ReadLabels fs path
  = Ok (firstn (Z.to_nat count) (skipn (payload_offset header) buff)).
Proof.
  intros Hfs Hh Hk Hd Hlen. unfold ReadLabels.
  rewrite <- Hk. rewrite (ReadDataHelper_ok fs path Hfs Hh Hd). cbn [bind].
  unfold instance_count. rewrite Hd. cbn [bind].
  now apply read_labels_loop_ok.
Qed.

(** The payload starts right after the header. *)
Lemma payload_offset_after_header (buff : buffer) (header : Header) :
  ReadHeader buff = Ok header ->
  payload_offset header = (4 + 4 * List.length (dim_sizes header))%nat.
Proof.
  unfold ReadHeader. intros Hh.
  destruct (load_u32 buff 0) as [raw| |] eqn:Hraw; try discriminate.
  cbn [bind] in Hh.
  set (n := Z.land (bswap32 raw) 255) in *.
  assert (Hn : 0 <= n < 256).
  { subst n. rewrite low_byte. apply Z.mod_pos_bound. lia. }
  destruct (Nat.le_gt_cases (4 + 4 * Z.to_nat n) (List.length buff)) as [Hin|Hout].
  - destruct (@read_dims_ok buff (Z.to_nat n) 4 Hin) as [dims [Hd [Hl _]]].
    rewrite Hd in Hh. cbn [bind] in Hh. injection Hh as <-.
    unfold payload_offset, mul_u32, add_u32. cbn [n_dim dim_sizes].
    rewrite Hl. change (2^32) with 4294967296.
    rewrite (Z.mod_small (n + 1)) by lia. rewrite Z.mod_small by lia. lia.
  - rewrite read_dims_short in Hh; [discriminate | | assumption].
    unfold load_u32 in Hraw. pose proof (length_skipn 0 buff) as Hs.
    four_bytes buff 0%nat; try discriminate.
    simpl in Hs. lia.
Qed.

(** With no overflow, the 32-bit product is the product. *)
Lemma accumulate_product (extents : list Z) :
  Forall (fun d => 0 <= d) extents ->
  product extents < 2^32 ->
  accumulate extents 1 mul_u32 = product extents.
Proof.
  unfold accumulate, product.
  assert (G : forall acc, 0 <= acc ->
              Forall (fun d => 0 <= d) extents ->
              acc * fold_right Z.mul 1 extents < 2^32 ->
              fold_left mul_u32 extents acc = acc * fold_right Z.mul 1 extents).
  { induction extents as [|d ds IH]; intros acc Hacc Hpos Hlt; cbn.
    - lia.
    - inversion Hpos as [|? ? Hd Hds]; subst.
      assert (Hp : 0 <= fold_right Z.mul 1 ds).
      { clear -Hds. induction Hds; cbn; [lia | nia]. }
      cbn in Hlt.
      destruct (Z.eq_dec (fold_right Z.mul 1 ds) 0) as [Hz | Hnz].
      + assert (Hm : 0 <= mul_u32 acc d) by (apply Z.mod_pos_bound; lia).
        rewrite IH; try assumption; rewrite Hz; lia.
      + assert (Hsmall : acc * d < 2^32) by nia.
        unfold mul_u32 at 2. rewrite Z.mod_small by nia.
        rewrite IH; try assumption; nia. }
  intros Hpos Hlt. rewrite G; try assumption; lia.
Qed.

Lemma read_dims_range (buff : buffer) (n cursor : nat) (dims : list Z) :
  read_dims buff cursor n = Ok dims ->
  Forall (fun d => 0 <= d < 2^32) dims.
Proof.
  revert cursor dims. induction n as [|n IH]; intros cursor dims; cbn.
  - intros [= <-]. constructor.
  - unfold load_u32.
    four_bytes buff cursor; try discriminate.
    cbn [bind].
    destruct (read_dims buff (cursor + 4) n) as [rest| |] eqn:Hr;
      try discriminate.
    cbn [bind]. intros [= <-]. constructor.
    + rewrite bswap32_le_u32. apply be_u32_range.
    + exact (IH _ _ Hr).
Qed.

Lemma ReadHeader_dims_range (buff : buffer) (header : Header) :
  ReadHeader buff = Ok header ->
  Forall (fun d => 0 <= d < 2^32) (dim_sizes header).
Proof.
  unfold ReadHeader.
  destruct (load_u32 buff 0) as [raw| |]; try discriminate. cbn [bind].
  destruct (read_dims buff 4 _) as [dims| |] eqn:Hd; try discriminate.
  cbn [bind]. intros [= <-]. exact (read_dims_range _ _ _ Hd).
Qed.

(** As long as the product of the extents fits in 32 bits, [ReadImages]
    starts right after the header, cuts [dim_sizes[0]] records of that
    product's size, and returns their bytes unchanged, in file order. *)
Lemma ReadImages_within_32_bits (fs : FileSystem) (path : string)
    (buff : buffer) (header : Header) (count : Z) (extents : list Z) :
  fs path = Some buff ->
  ReadHeader buff = Ok header ->
  ftype header = IMAGE ->
  dim_sizes header = count :: extents ->
  product extents < 2^32 ->
  (4 + 4 * List.length (dim_sizes header)
   + Z.to_nat count * Z.to_nat (product extents) <= List.length buff)%nat ->
  ReadImages fs path
  = Ok (map (record_at buff (4 + 4 * List.length (dim_sizes header))
               (Z.to_nat (product extents)))
            (seq 0 (Z.to_nat count))).
Proof.
  intros Hfs Hh Hk Hd Hprod Hlen.
  pose proof (ReadHeader_dims_range _ Hh) as Hr. rewrite Hd in Hr.
  inversion Hr as [|? ? _ Hext]; subst.
  assert (Hacc : accumulate extents 1 mul_u32 = product extents).
  { apply accumulate_product; [|assumption].
    eapply Forall_impl; [|exact Hext]. cbn. intros; lia. }
  rewrite <- (payload_offset_after_header _ Hh) in *.
  rewrite <- Hacc in *.
  now apply (ReadImages_ok fs path Hfs Hh Hk Hd).
Qed.

(** ** The record size is computed in 32 bits *)

Lemma wide_image_header_then (tail : buffer) :
  ReadHeader (wide_image_header ++ tail)
  = Ok (mkHeader IMAGE 3 [1; 65536; 65536]) /\
  ReadImages (fun _ => Some (wide_image_header ++ tail)) "images" = Ok [[]].
Proof.
  split; vm_compute; reflexivity.
Qed.

(** C6 at a 65536 x 65536 image.  The file holds the header and the whole
    payload the header announces; the record the format lays out after the
    header has [65536 * 65536] bytes, yet the record [ReadImages] returns is
    empty: the record size was multiplied out in [uint32_t] and wrapped
    to 0. *)
Theorem ReadImages_record_size_wraps :
  ReadHeader wide_image_file = Ok (mkHeader IMAGE 3 [1; 65536; 65536]) /\
  Z.of_nat (List.length wide_image_file) = 16 + 1 * product [65536; 65536] /\
  Z.of_nat (List.length (record_at wide_image_file 16
                            (Z.to_nat (product [65536; 65536])) 0))
  = 65536 * 65536 /\
  accumulate [65536; 65536] 1 mul_u32 = 0 /\
  ReadImages (fun _ => Some wide_image_file) "images" = Ok [[]].
Proof.
  assert (Hlen : List.length wide_image_file
                 = (16 + Z.to_nat 4294967296)%nat).
  { unfold wide_image_file. rewrite length_app, repeat_length. reflexivity. }
  destruct (wide_image_header_then (repeat x00 (Z.to_nat 4294967296)))
    as [Hh Hr].
  split; [exact Hh|].
  split; [|split; [|split; [reflexivity | exact Hr]]].
  - rewrite Hlen. change (product [65536; 65536]) with 4294967296.
    rewrite Nat2Z.inj_add, Z2Nat.id by lia. reflexivity.
  - unfold record_at. change (product [65536; 65536]) with 4294967296.
    rewrite length_firstn, length_skipn, Hlen.
    rewrite Nat.mul_0_l, Nat.add_0_r, Nat.add_comm, Nat.add_sub, Nat.min_id.
    rewrite Z2Nat.id by lia. reflexivity.
Qed.

(** ** A file of the wrong kind *)

Lemma ReadDataHelper_wrong_kind (fs : FileSystem) (path : string)
    (buff : buffer) (header : Header) (expected : FileType) :
  fs path = Some buff ->
  ReadHeader buff = Ok header ->
  ftype header <> expected ->
  ReadDataHelper fs path expected = Throw msg_filetype.
Proof.
  intros Hfs Hh Hne. unfold ReadDataHelper. rewrite Hfs, Hh. cbn [bind].
  destruct (ftype header), expected; try reflexivity; contradiction.
Qed.

(** C7. When the decoded header kind of a file differs from the kind
    expected for its role, [ReadDataHelper] throws the file-type error before
    any payload is read, so the reader of that role throws it too, and
    [build_data_] fails: it returns no dataset and reports that error. *)
Theorem file_type_mismatch (fs : FileSystem) (path : string) (buff : buffer)
    (header : Header) (expected : FileType) :
  fs path = Some buff ->
  ReadHeader buff = Ok header ->
  ftype header <> expected ->
  ReadDataHelper fs path expected = Throw msg_filetype /\
  (expected = IMAGE ->
     ReadImages fs path = Throw msg_filetype /\
     (forall N, ReadImagesArray N fs path = Throw msg_filetype) /\
     (forall labels_path,
        build_data_ (C := list byte) fs path labels_path
        = (Ok None,
           [(INFO, "Now reading images...");
            (ERROR, ("Error in build_data_: " ++ msg_filetype)%string)])) /\
     (forall N labels_path,
        build_data_ (C := std_array N) fs path labels_path
        = (Ok None,
           [(INFO, "Now reading images...");
            (ERROR, ("Error in build_data_: " ++ msg_filetype)%string)]))) /\
  (expected = LABEL ->
     ReadLabels fs path = Throw msg_filetype /\
     (forall (C : Type) (IC : ImageContainer C) images_path imgs,
        read_images_as fs images_path = Ok imgs ->
        build_data_ fs images_path path
        = (Ok None,
           [(INFO, "Now reading images...");
            (INFO, "Images read compeleted!");
            (INFO, "Now reading labels...");
            (ERROR, ("Error in build_data_: " ++ msg_filetype)%string)]))).
Proof.
  intros Hfs Hh Hne.
  pose proof (ReadDataHelper_wrong_kind fs path Hfs Hh Hne) as Hthrow.
  split; [exact Hthrow|]. split.
  - intros ->.
    assert (Hv : ReadImages fs path = Throw msg_filetype)
      by (unfold ReadImages; rewrite Hthrow; reflexivity).
    assert (Ha : forall N, ReadImagesArray N fs path = Throw msg_filetype)
      by (intros N; unfold ReadImagesArray; rewrite Hthrow; reflexivity).
    split; [exact Hv|]. split; [exact Ha|]. split.
    + intros labels_path. unfold build_data_. cbn [read_images_as vector_container].
      rewrite Hv. reflexivity.
    + intros N labels_path. unfold build_data_.
      cbn [read_images_as array_container]. rewrite Ha. reflexivity.
  - intros ->.
    assert (Hl : ReadLabels fs path = Throw msg_filetype)
      by (unfold ReadLabels; rewrite Hthrow; reflexivity).
    split; [exact Hl|].
    intros C IC images_path imgs Himgs. unfold build_data_.
    rewrite Himgs, Hl. reflexivity.
Qed.

Lemma file_type_mismatch_witness :
  ReadDataHelper test_fs "labels" IMAGE = Throw msg_filetype /\
  ReadImages test_fs "labels" = Throw msg_filetype /\
  fst (build_data_ (C := list byte) test_fs "labels" "labels") = Ok None.
Proof.
  destruct (@file_type_mismatch test_fs "labels" label_file_3
              (mkHeader LABEL 1 [3]) IMAGE)
    as [Hd [Hi _]].
  - reflexivity.
  - reflexivity.
  - discriminate.
  - destruct (Hi eq_refl) as [Hv [_ [Hb _]]].
    split; [exact Hd|]. split; [exact Hv|].
    rewrite Hb. reflexivity.
Defined.

(** ** [build_data_] *)

Section BuildFacts.

Context {C : Type} `{ImageContainer C}.

Lemma build_data_reads_ok (fs : FileSystem) (imgs_path labels_path : string)
    (imgs : list C) (lbls : list byte) :
  read_images_as fs imgs_path = Ok imgs ->
  ReadLabels fs labels_path = Ok lbls ->
  build_data_ fs imgs_path labels_path
  = if (List.length imgs =? List.length lbls)%nat
    then (Ok (Some (mkData imgs lbls)),
          [(INFO, "Now reading images...");
           (INFO, "Images read compeleted!");
           (INFO, "Now reading labels...");
           (INFO, "Labels read compeleted!")])
    else (Ok None,
          [(INFO, "Now reading images...");
           (INFO, "Images read compeleted!");
           (INFO, "Now reading labels...");
           (INFO, "Labels read compeleted!");
           (ERROR, ("Error in build_data_: " ++ msg_count_mismatch)%string)]).
Proof.
  intros Hi Hl. unfold build_data_. rewrite Hi, Hl.
  run_logged. cbn.
  destruct (List.length imgs =? List.length lbls)%nat; reflexivity.
Qed.

Lemma build_data_Some_inv (fs : FileSystem) (imgs_path labels_path : string)
    (d : Data C) :
  fst (build_data_ fs imgs_path labels_path) = Ok (Some d) ->
  read_images_as fs imgs_path = Ok (images d) /\
  ReadLabels fs labels_path = Ok (labels d) /\
  List.length (images d) = List.length (labels d).
Proof.
  unfold build_data_. run_logged.
  destruct (read_images_as fs imgs_path) as [imgs|w|]; cbn; try discriminate.
  destruct (ReadLabels fs labels_path) as [lbls|w|]; cbn; try discriminate.
  destruct (Nat.eqb_spec (List.length imgs) (List.length lbls)) as [He|Hne];
    cbn; try discriminate.
  intros [= <-]. cbn. auto.
Qed.

(** The handler's [catch] leaves no exception: [build_data_] never throws. *)
Lemma build_data_no_throw (fs : FileSystem) (imgs_path labels_path : string)
    (w : string) :
  fst (build_data_ fs imgs_path labels_path) <> Throw w.
Proof.
  unfold build_data_. run_logged.
  destruct (read_images_as fs imgs_path) as [imgs|w'|]; cbn; try discriminate.
  destruct (ReadLabels fs labels_path) as [lbls|w'|]; cbn; try discriminate.
  destruct (List.length imgs =? List.length lbls)%nat; cbn; discriminate.
Qed.

(** ** The constructors *)

Lemma get_shape_Ok_inv (ptr : DataSetPtr C) (shape : DataShape) :
  get_shape_ ptr = Ok shape ->
  exists d img0 rest,
    ptr = Some d /\ images d = img0 :: rest /\
    shape = ((Z.of_nat (List.length (images d)), container_size img0),
             (Z.of_nat (List.length (labels d)), 1)).
Proof.
  unfold get_shape_. destruct ptr as [d|]; try discriminate.
  destruct (images d) as [|img0 rest] eqn:Hi; try discriminate.
  intros [= <-]. exists d, img0, rest. rewrite Hi. auto.
Qed.

Lemma DataHandler_of_ptr_inv (ptr : DataSetPtr C) (h : DataHandler C) :
  DataHandler_of_ptr ptr = Ok h ->
  exists d img0 rest,
    ptr = Some d /\ images d = img0 :: rest /\
    h = mkDataHandler (Some d)
          ((Z.of_nat (List.length (images d)), container_size img0),
           (Z.of_nat (List.length (labels d)), 1)).
Proof.
  unfold DataHandler_of_ptr.
  destruct (get_shape_ ptr) as [shape|w|] eqn:Hs; try discriminate.
  cbn [bind]. intros [= <-].
  destruct (get_shape_Ok_inv _ Hs) as [d [img0 [rest [-> [Hi ->]]]]].
  exists d, img0, rest. auto.
Qed.

Lemma DataHandler_of_paths_inv (fs : FileSystem)
    (images_path labels_path : string) (h : DataHandler C) :
  fst (DataHandler_of_paths fs images_path labels_path) = Ok h ->
  exists ptr,
    fst (build_data_ fs images_path labels_path) = Ok ptr /\
    DataHandler_of_ptr ptr = Ok h.
Proof.
  unfold DataHandler_of_paths, lbind, lift.
  destruct (fst (build_data_ fs images_path labels_path)) as [ptr|w|];
    cbn; try discriminate.
  intros Hh. exists ptr. auto.
Qed.

Lemma constructed_inv (h : DataHandler C) :
  constructed h ->
  exists d img0 rest,
    images d = img0 :: rest /\
    h = mkDataHandler (Some d)
          ((Z.of_nat (List.length (images d)), container_size img0),
           (Z.of_nat (List.length (labels d)), 1)).
Proof.
  intros [ptr h' Hp | fs ip lp h' Hp].
  - destruct (DataHandler_of_ptr_inv _ Hp) as [d [img0 [rest [_ [Hi ->]]]]].
    exists d, img0, rest. auto.
  - destruct (DataHandler_of_paths_inv _ _ _ Hp) as [ptr [_ Hq]].
    destruct (DataHandler_of_ptr_inv _ Hq) as [d [img0 [rest [_ [Hi ->]]]]].
    exists d, img0, rest. auto.
Qed.

End BuildFacts.

(** ** Assembly: the counts must agree *)

(** C1, as the source behaves.  When both files are read and the numbers of
    records differ, [build_data_] fails with the count-mismatch error: it logs
    the fixed text of that error and returns a null pointer, so no dataset
    exists, not even a partial one.  A dataset is returned only when both
    reads succeed and the counts are equal. *)
Theorem build_data_count_mismatch {C : Type} `{ImageContainer C}
    (fs : FileSystem) (imgs_path labels_path : string)
    (imgs : list C) (lbls : list byte) :
  read_images_as fs imgs_path = Ok imgs ->
  ReadLabels fs labels_path = Ok lbls ->
  List.length imgs <> List.length lbls ->
  build_data_ fs imgs_path labels_path
  = (Ok None,
     [(INFO, "Now reading images...");
      (INFO, "Images read compeleted!");
      (INFO, "Now reading labels...");
      (INFO, "Labels read compeleted!");
      (ERROR, ("Error in build_data_: " ++ msg_count_mismatch)%string)]) /\
  (forall fs' imgs_path' labels_path' (d : Data C),
     fst (build_data_ fs' imgs_path' labels_path') = Ok (Some d) ->
     read_images_as fs' imgs_path' = Ok (images d) /\
     ReadLabels fs' labels_path' = Ok (labels d) /\
     List.length (images d) = List.length (labels d)).
Proof.
  intros Hi Hl Hne. split.
  - rewrite (build_data_reads_ok _ _ _ Hi Hl).
    destruct (Nat.eqb_spec (List.length imgs) (List.length lbls));
      [contradiction | reflexivity].
  - intros fs' ip lp d. apply build_data_Some_inv.
Qed.

Lemma build_data_count_mismatch_witness :
  fst (build_data_ (C := list byte) test_fs "images" "labels2") = Ok None.
Proof.
  destruct (@build_data_count_mismatch (list byte) _ test_fs "images"
              "labels2" images_3x2x2 (map b [7;8]%N)) as [Hb _].
  - reflexivity.
  - reflexivity.
  - cbn. lia.
  - rewrite Hb. reflexivity.
Defined.

(** C1, as stated, fails: builds over 3 images and 2 labels and over 3 images
    and 1 label end in the very same result and log, so the failure does not
    carry the counts. *)
Lemma build_data_mismatch_hides_counts :
  ~ mismatch_carries_counts (list byte).
Proof.
  intros [counts_of Hc].
  pose proof (Hc test_fs "images" "labels2" images_3x2x2 (map b [7;8]%N)
                eq_refl eq_refl ltac:(cbn; lia)) as H2.
  pose proof (Hc test_fs "images" "labels1" images_3x2x2 (map b [7]%N)
                eq_refl eq_refl ltac:(cbn; lia)) as H1.
  assert (E : build_data_ (C := list byte) test_fs "images" "labels2"
              = build_data_ (C := list byte) test_fs "images" "labels1")
    by (vm_compute; reflexivity).
  rewrite E, H1 in H2. cbn in H2. discriminate H2.
Qed.

(** ** Access to one instance *)

Lemma successfully_built_inv {C : Type} `{ImageContainer C}
    (h : DataHandler C) :
  successfully_built h ->
  exists d img0,
    List.length (images d) = List.length (labels d) /\
    h = mkDataHandler (Some d)
          ((Z.of_nat (List.length (images d)), container_size img0),
           (Z.of_nat (List.length (labels d)), 1)).
Proof.
  intros [fs ip lp h' Hh | d h' Hlen Hp].
  - destruct (DataHandler_of_paths_inv _ _ _ Hh) as [ptr [Hb Hp]].
    destruct (DataHandler_of_ptr_inv _ Hp) as [d [img0 [rest [-> [Hi ->]]]]].
    destruct (build_data_Some_inv _ _ _ Hb) as [_ [_ Hlen]].
    exists d, img0. auto.
  - destruct (DataHandler_of_ptr_inv _ Hp)
      as [d' [img0 [rest [[= <-] [Hi ->]]]]].
    exists d, img0. auto.
Qed.

(** Where the dataset has as many labels as images ([successfully_built]),
    and for every [std::size_t] index: below the number [N] of images the
    call returns the image and the label stored at that position; from [N]
    on, the largest index included, it throws the out-of-bounds error.  The
    equality of the two sizes is needed: see the next theorem. *)
Theorem GetDatasetInstance_checked {C : Type} `{ImageContainer C}
    (h : DataHandler C) (index : Z) :
  successfully_built h ->
  0 <= index < 2^64 ->
  exists d,
    m_datasetptr h = Some d /\
    (index < Z.of_nat (List.length (images d)) ->
       exists img lbl,
         nth_error (images d) (Z.to_nat index) = Some img /\
         nth_error (labels d) (Z.to_nat index) = Some lbl /\
         GetDatasetInstance h index = (Ok (img, lbl), [])) /\
    (Z.of_nat (List.length (images d)) <= index ->
       GetDatasetInstance h index
       = (Throw msg_out_of_bounds,
          [(ERROR,
            ("Out of bound value index! Index should be less than: "
             ++ show_size (Z.of_nat (List.length (images d))))%string)])).
Proof.
  intros Hb Hidx.
  destruct (successfully_built_inv Hb) as [d [img0 [Hlen ->]]].
  exists d. split; [reflexivity|].
  unfold GetDatasetInstance. cbn [m_shape m_datasetptr fst].
  split.
  - intros Hlt.
    destruct (Z.geb_spec index (Z.of_nat (List.length (images d)))); [lia|].
    destruct (nth_error (images d) (Z.to_nat index)) as [img|] eqn:Himg.
    2:{ apply nth_error_None in Himg. lia. }
    destruct (nth_error (labels d) (Z.to_nat index)) as [lbl|] eqn:Hlbl.
    2:{ apply nth_error_None in Hlbl. lia. }
    exists img, lbl. split; [reflexivity|]. split; [reflexivity|].
    unfold vector_at. rewrite Himg, Hlbl. reflexivity.
  - intros Hge.
    destruct (Z.geb_spec index (Z.of_nat (List.length (images d)))); [|lia].
    reflexivity.
Qed.

Lemma GetDatasetInstance_checked_witness :
  GetDatasetInstance handler_3x2x2 1 = (Ok (map b [21;22;23;24]%N, b 8), []) /\
  fst (GetDatasetInstance handler_3x2x2 18446744073709551615)
  = Throw msg_out_of_bounds.
Proof.
  assert (Hb : successfully_built handler_3x2x2)
    by (apply (@built_of_paths _ _ test_fs "images" "labels"); reflexivity).
  split.
  - destruct (@GetDatasetInstance_checked (list byte) _ handler_3x2x2 1 Hb)
      as [d [Hd [Hin _]]]; [lia|].
    injection Hd as <-.
    destruct (Hin ltac:(cbn; lia)) as [img [lbl [Hi [Hl Hg]]]].
    injection Hi as <-. injection Hl as <-. exact Hg.
  - destruct (@GetDatasetInstance_checked (list byte) _ handler_3x2x2
                18446744073709551615 Hb) as [d [Hd [_ Hout]]]; [lia|].
    injection Hd as <-. rewrite (Hout ltac:(cbn; lia)). reflexivity.
Defined.

(** C2 over a dataset with fewer labels than images.  The constructor that
    takes a dataset builds a handler over three images and one label without
    comparing the two sizes.  The handler holds 3 instances and index 2 is
    below 3, yet the call neither returns the pair at position 2 nor throws:
    the guard compares the index with the number of images only, and
    [labels[2]] is read outside the vector.  The other constructor refuses
    the same two counts, in [build_data_]. *)
Theorem GetDatasetInstance_reads_past_labels :
  DataHandler_of_ptr (Some dataset_3_images_1_label)
  = Ok (mkDataHandler (Some dataset_3_images_1_label) ((3, 4), (1, 1))) /\
  constructed (mkDataHandler (Some dataset_3_images_1_label) ((3, 4), (1, 1))) /\
  nth_error (images dataset_3_images_1_label) 2
  = Some (map b [31;32;33;34]%N) /\
  nth_error (labels dataset_3_images_1_label) 2 = None /\
  GetDatasetInstance
    (mkDataHandler (Some dataset_3_images_1_label) ((3, 4), (1, 1))) 2
  = (Undefined, []) /\
  fst (build_data_ (C := list byte) test_fs "images" "labels1") = Ok None.
Proof.
  assert (Hp : DataHandler_of_ptr (Some dataset_3_images_1_label)
               = Ok (mkDataHandler (Some dataset_3_images_1_label)
                       ((3, 4), (1, 1))))
    by reflexivity.
  split; [exact Hp|].
  split; [exact (constructed_of_ptr _ Hp)|].
  split; [reflexivity|]. split; [reflexivity|].
  split; vm_compute; reflexivity.
Qed.

(** ** The cached shape *)

(** C8. The shape a constructed handler holds is the one computed in its
    constructor: the number of images, the size of the first image, the
    number of labels, and 1.  Reading it back cannot fail: it is a member of
    the handler, and [PrintShape] prints exactly these four numbers. *)
Theorem shape_of_constructed_handler {C : Type} `{ImageContainer C}
    (h : DataHandler C) :
  constructed h ->
  exists d img0 rest,
    m_datasetptr h = Some d /\
    images d = img0 :: rest /\
    m_shape h
    = ((Z.of_nat (List.length (images d)), container_size img0),
       (Z.of_nat (List.length (labels d)), 1)) /\
    PrintShape h
    = ("Images shape: (" ++ show_size (Z.of_nat (List.length (images d)))
       ++ ", " ++ show_size (container_size img0) ++ ")" ++ newline
       ++ "Labels shape: (" ++ show_size (Z.of_nat (List.length (labels d)))
       ++ ", " ++ show_size 1 ++ ")" ++ newline)%string.
Proof.
  intros Hc.
  destruct (constructed_inv Hc) as [d [img0 [rest [Hi ->]]]].
  exists d, img0, rest. repeat split; assumption.
Qed.

Lemma shape_of_constructed_handler_witness :
  fst (DataHandler_of_paths test_fs "images" "labels") = Ok handler_3x2x2 /\
  m_shape handler_3x2x2 = ((3, 4), (3, 1)).
Proof.
  assert (Hp : fst (DataHandler_of_paths test_fs "images" "labels")
               = Ok handler_3x2x2) by reflexivity.
  split; [exact Hp|].
  destruct (@shape_of_constructed_handler (list byte) _ handler_3x2x2
              (constructed_of_paths _ _ _ Hp))
    as [d [img0 [rest [Hd [Hi [Hs _]]]]]].
  injection Hd as <-. injection Hi as <- _. exact Hs.
Defined.

(** C9, as the source behaves.  Over an empty dataset the shape computation
    evaluates [images[0]] on an empty vector: the outcome is undefined
    behaviour, no exception is thrown and the constructor has no defined
    result.  A shape is computed only for a dataset with at least one
    image. *)
Theorem get_shape_empty_is_undefined {C : Type} `{ImageContainer C}
    (d : Data C) :
  images d = [] ->
  get_shape_ (Some d) = Undefined /\
  ~ throws (get_shape_ (Some d)) /\
  DataHandler_of_ptr (Some d) = Undefined /\
  (forall (ptr : DataSetPtr C) shape,
     get_shape_ ptr = Ok shape ->
     exists d', ptr = Some d' /\ (1 <= List.length (images d'))%nat).
Proof.
  intros He.
  assert (Hs : get_shape_ (Some d) = Undefined)
    by (unfold get_shape_; rewrite He; reflexivity).
  split; [exact Hs|]. split; [|split].
  - intros [w Hw]. rewrite Hs in Hw. discriminate Hw.
  - unfold DataHandler_of_ptr. rewrite Hs. reflexivity.
  - intros ptr shape Hok.
    destruct (get_shape_Ok_inv _ Hok) as [d' [img0 [rest [-> [Hi _]]]]].
    exists d'. split; [reflexivity|]. rewrite Hi. cbn. lia.
Qed.

Lemma get_shape_empty_is_undefined_witness :
  DataHandler_of_ptr (Some (mkData (@nil (std_array 784)) [])) = Undefined.
Proof.
  destruct (@get_shape_empty_is_undefined (std_array 784) _
              (mkData [] []) eq_refl) as [_ [_ [Hu _]]].
  exact Hu.
Defined.

(** C9, as stated, fails on the empty dataset, whether handed over directly
    or built from two files that announce no instance: the shape computation
    raises no error. *)
Lemma get_shape_empty_not_rejected :
  images (mkData (@nil (list byte)) []) = [] /\
  get_shape_ (Some (mkData (@nil (list byte)) [])) = Undefined /\
  ~ throws (get_shape_ (Some (mkData (@nil (list byte)) []))) /\
  fst (build_data_ (C := list byte) test_fs "no-images" "no-labels")
  = Ok (Some (mkData [] [])) /\
  fst (DataHandler_of_paths (C := list byte) test_fs "no-images" "no-labels")
  = Undefined.
Proof.
  split; [reflexivity|]. split; [reflexivity|]. split.
  - intros [w Hw]. discriminate Hw.
  - split; reflexivity.
Qed.

(** ** No handler without a dataset *)

Lemma vector_at_no_throw {A : Type} (v : list A) (index : Z) (w : string) :
  vector_at v index <> Throw w.
Proof.
  unfold vector_at. destruct (nth_error v (Z.to_nat index)); discriminate.
Qed.

(** C10. A constructed handler, from either constructor, owns a non-null
    dataset pointer: [Data()] returns the dataset and no call of
    [GetDatasetInstance] reaches the null-pointer error.  A null pointer,
    handed over or returned by a failed [build_data_], makes [get_shape_]
    throw in the constructor, so that no handler comes into existence. *)
Theorem constructed_handler_owns_dataset {C : Type} `{ImageContainer C}
    (h : DataHandler C) :
  constructed h ->
  m_datasetptr h <> None /\
  (exists d, m_datasetptr h = Some d /\ get_Data h = Ok d) /\
  (forall index, fst (GetDatasetInstance h index) <> Throw msg_null_dataset) /\
  DataHandler_of_ptr (C := C) None = Throw msg_null_shape /\
  (forall fs images_path labels_path,
     fst (build_data_ (C := C) fs images_path labels_path) = Ok None ->
     fst (DataHandler_of_paths (C := C) fs images_path labels_path)
     = Throw msg_null_shape).
Proof.
  intros Hc.
  destruct (constructed_inv Hc) as [d [img0 [rest [Hi ->]]]].
  cbn [m_datasetptr]. split; [discriminate|]. split; [|split; [|split]].
  - exists d. split; reflexivity.
  - intros index. unfold GetDatasetInstance. cbn [m_shape m_datasetptr fst].
    destruct (index >=? Z.of_nat (List.length (images d))).
    + cbn. unfold msg_out_of_bounds, msg_null_dataset. discriminate.
    + unfold lbind, lift, lret. cbn [fst snd].
      pose proof (@vector_at_no_throw _ (images d) index msg_null_dataset) as Hv.
      destruct (vector_at (images d) index) as [img|w|]; try discriminate.
      * pose proof (@vector_at_no_throw _ (labels d) index msg_null_dataset)
          as Hl.
        cbn [fst snd].
        destruct (vector_at (labels d) index) as [lbl|w|]; try discriminate.
        cbn. intros [= ->]. now apply Hl.
      * cbn. intros [= ->]. now apply Hv.
  - reflexivity.
  - intros fs ip lp Hb. unfold DataHandler_of_paths, lbind.
    rewrite Hb. reflexivity.
Qed.

Lemma constructed_handler_owns_dataset_witness :
  get_Data handler_3x2x2
  = Ok (mkData images_3x2x2 (map b [7;8;9]%N)) /\
  fst (DataHandler_of_paths (C := list byte) test_fs "images" "labels2")
  = Throw msg_null_shape.
Proof.
  destruct (@constructed_handler_owns_dataset (list byte) _ handler_3x2x2)
    as [_ [[d [Hd Hg]] [_ [_ Hf]]]].
  - apply (@constructed_of_paths _ _ test_fs "images" "labels"). reflexivity.
  - injection Hd as <-. split; [exact Hg|].
    apply Hf. reflexivity.
Defined.

(** ** More on the header: what every decoded header satisfies *)

Lemma ReadHeader_Ok_inv (buff : buffer) (header : Header) :
  ReadHeader buff = Ok header ->
  exists magic,
    be_u32_at buff 0 = Some magic /\
    (4 + 4 * Z.to_nat (Z.land magic 0xFF) <= List.length buff)%nat /\
    ftype header = (if magic =? 0x803 then IMAGE else LABEL) /\
    n_dim header = Z.land magic 0xFF /\
    List.length (dim_sizes header) = Z.to_nat (Z.land magic 0xFF) /\
    forall k, (k < Z.to_nat (Z.land magic 0xFF))%nat ->
      nth_error (dim_sizes header) k = be_u32_at buff (4 + 4 * k).
Proof.
  intros Hh.
  destruct (be_u32_at buff 0) as [magic|] eqn:Hm.
  - exists magic. split; [reflexivity|].
    destruct (Nat.le_gt_cases (4 + 4 * Z.to_nat (Z.land magic 0xFF))
                (List.length buff)) as [Hin | Hout].
    + destruct (ReadHeader_ok buff Hm Hin) as [dims [Hok [Hl Hk]]].
      rewrite Hok in Hh. injection Hh as <-. cbn. auto.
    + rewrite ReadHeader_truncated in Hh; [discriminate|].
      unfold truncated_header, declared_header_size. rewrite Hm. exact Hout.
  - rewrite ReadHeader_truncated in Hh; [discriminate|].
    unfold truncated_header, declared_header_size. now rewrite Hm.
Qed.

(** X1. Every header [ReadHeader] returns is consistent: [n_dim] is the
    number of sizes read and is at most 255, every size is a 32-bit value,
    and the offset [4u*(n_dim + 1)] at which the readers look for the payload
    is [4 + 4 * n_dim] (the 32-bit arithmetic does not wrap) and lies inside
    the buffer. *)
Theorem ReadHeader_consistent (buff : buffer) (header : Header) :
  ReadHeader buff = Ok header ->
  0 <= n_dim header <= 255 /\
  Z.of_nat (List.length (dim_sizes header)) = n_dim header /\
  Forall (fun d => 0 <= d < 2^32) (dim_sizes header) /\
  Z.of_nat (payload_offset header) = 4 + 4 * n_dim header /\
  (payload_offset header <= List.length buff)%nat.
Proof.
  intros Hh.
  destruct (ReadHeader_Ok_inv buff Hh) as [magic [Hm [Hlen [_ [Hn [Hl _]]]]]].
  assert (Hr : 0 <= Z.land magic 0xFF < 256).
  { rewrite low_byte. apply Z.mod_pos_bound. lia. }
  pose proof (payload_offset_after_header _ Hh) as Hp.
  split; [lia|]. split; [lia|]. split; [exact (ReadHeader_dims_range _ Hh)|].
  split; lia.
Qed.

Lemma ReadHeader_consistent_witness :
  0 <= 3 <= 255 /\
  Z.of_nat (List.length (dim_sizes (mkHeader IMAGE 3 [3; 2; 2]))) = 3 /\
  Forall (fun d => 0 <= d < 2^32) (dim_sizes (mkHeader IMAGE 3 [3; 2; 2])) /\
  Z.of_nat (payload_offset (mkHeader IMAGE 3 [3; 2; 2])) = 4 + 4 * 3 /\
  (payload_offset (mkHeader IMAGE 3 [3; 2; 2]%Z)
   <= List.length image_file_3x2x2)%nat.
Proof.
  apply (@ReadHeader_consistent image_file_3x2x2 (mkHeader IMAGE 3 [3; 2; 2])).
  reflexivity.
Defined.

(** X2. A header is of kind [IMAGE] exactly when the magic word is
    [0x00000803]; such a header always has three sizes (instances, rows,
    columns) and its payload starts at byte 16. *)
Theorem ReadHeader_image_kind (buff : buffer) (header : Header) :
  ReadHeader buff = Ok header ->
  (ftype header = IMAGE <-> be_u32_at buff 0 = Some 0x803) /\
  (ftype header = IMAGE ->
     n_dim header = 3 /\
     payload_offset header = 16%nat /\
     exists count rows cols, dim_sizes header = [count; rows; cols]).
Proof.
  intros Hh.
  destruct (ReadHeader_Ok_inv buff Hh) as [magic [Hm [Hlen [Hk [Hn [Hl _]]]]]].
  assert (Himg : ftype header = IMAGE -> magic = 0x803).
  { rewrite Hk. destruct (Z.eqb_spec magic 0x803); [auto | discriminate]. }
  split.
  - split.
    + intros Hi. rewrite Hm, (Himg Hi). reflexivity.
    + rewrite Hm. intros [= ->]. rewrite Hk. reflexivity.
  - intros Hi. specialize (Himg Hi). subst magic.
    change (Z.land 0x803 0xFF) with 3 in *. split; [exact Hn|].
    split.
    + rewrite (payload_offset_after_header _ Hh), Hl. reflexivity.
    + destruct (dim_sizes header) as [|c [|r [|w [|x l]]]]; try discriminate.
      now exists c, r, w.
Qed.

Lemma ReadHeader_image_kind_witness :
  (IMAGE = IMAGE <-> be_u32_at image_file_3x2x2 0 = Some 0x803) /\
  (IMAGE = IMAGE ->
     3 = 3 /\
     payload_offset (mkHeader IMAGE 3 [3; 2; 2]) = 16%nat /\
     exists count rows cols, [3; 2; 2] = [count; rows; cols]).
Proof.
  apply (@ReadHeader_image_kind image_file_3x2x2 (mkHeader IMAGE 3 [3; 2; 2])).
  reflexivity.
Defined.

Lemma be_u32_at_firstn (buff : buffer) (L off : nat) :
  (off + 4 <= L)%nat ->
  be_u32_at (firstn L buff) off = be_u32_at buff off.
Proof.
  intros Hoff. unfold be_u32_at. rewrite skipn_firstn_comm.
  destruct (L - off)%nat as [|[|[|[|m]]]] eqn:Hm; try lia.
  destruct (skipn off buff) as [|b0 [|b1 [|b2 [|b3 r]]]]; reflexivity.
Qed.

(** X3. [ReadHeader] looks at the header region only: a buffer that shares
    the first [4 + 4 * n_dim] bytes with a decoded one decodes to the same
    header, whatever follows. *)
Theorem ReadHeader_reads_only_header (buff buff' : buffer) (header : Header) :
  ReadHeader buff = Ok header ->
  firstn (payload_offset header) buff' = firstn (payload_offset header) buff ->
  ReadHeader buff' = Ok header.
Proof.
  intros Hh Hsame.
  destruct (ReadHeader_Ok_inv buff Hh) as [magic [Hm [Hlen [Hk [Hn [Hl Hd]]]]]].
  pose proof (payload_offset_after_header _ Hh) as Hp. rewrite Hl in Hp.
  set (L := payload_offset header) in *.
  assert (Hw : forall off, (off + 4 <= L)%nat ->
                 be_u32_at buff' off = be_u32_at buff off).
  { intros off Hoff.
    rewrite <- (@be_u32_at_firstn buff' L off Hoff), Hsame.
    now apply be_u32_at_firstn. }
  assert (Hlen' : (L <= List.length buff')%nat).
  { apply (f_equal (@List.length byte)) in Hsame.
    rewrite !length_firstn in Hsame. lia. }
  assert (Hm' : be_u32_at buff' 0 = Some magic) by (rewrite Hw; [assumption|lia]).
  destruct (ReadHeader_ok buff' Hm' ltac:(lia)) as [dims [Hok [Hl' Hd']]].
  rewrite Hok. f_equal. destruct header as [k n ds]. cbn in *.
  rewrite <- Hk, <- Hn. f_equal.
  apply nth_error_ext. intros i.
  destruct (Nat.lt_ge_cases i (Z.to_nat (Z.land magic 0xFF))) as [Hlt | Hge].
  - rewrite Hd', Hd by assumption. apply Hw. lia.
  - transitivity (@None Z); [|symmetry]; apply nth_error_None; lia.
Qed.

Lemma ReadHeader_reads_only_header_witness :
  ReadHeader (map b [0;0;8;3;  0;0;0;3;  0;0;0;2;  0;0;0;2;  99]%N)
  = Ok (mkHeader IMAGE 3 [3; 2; 2]).
Proof.
  apply (@ReadHeader_reads_only_header image_file_3x2x2).
  - reflexivity.
  - reflexivity.
Defined.

(** ** More on the payload readers *)

Lemma payload_offset_in_buffer (buff : buffer) (header : Header) :
  ReadHeader buff = Ok header ->
  (payload_offset header <= List.length buff)%nat.
Proof.
  intros Hh.
  destruct (ReadHeader_Ok_inv buff Hh) as [magic [_ [Hlen [_ [_ [Hl _]]]]]].
  rewrite (payload_offset_after_header _ Hh), Hl. exact Hlen.
Qed.

Lemma read_images_loop_short (buff : buffer) (image_size count cursor : nat) :
  (cursor <= List.length buff)%nat ->
  (List.length buff < cursor + count * image_size)%nat ->
  read_images_loop buff cursor image_size count = Undefined.
Proof.
  revert cursor.
  induction count as [|count IH]; intros cursor Hc Hlen; [cbn in Hlen; lia|].
  cbn [read_images_loop]. unfold read_range.
  destruct (Nat.leb_spec (cursor + image_size) (List.length buff)) as [Hin|Hout];
    [|reflexivity].
  cbn [bind]. rewrite IH by (cbn in Hlen; lia). reflexivity.
Qed.

Lemma read_labels_loop_short (buff : buffer) (count cursor : nat) :
  (cursor <= List.length buff)%nat ->
  (List.length buff < cursor + count)%nat ->
  read_labels_loop buff cursor count = Undefined.
Proof.
  revert cursor. induction count as [|count IH]; intros cursor Hc Hlen; [lia|].
  cbn [read_labels_loop].
  destruct (nth_error buff cursor) as [x|] eqn:Hx; [|reflexivity].
  assert (cursor < List.length buff)%nat
    by (apply nth_error_Some; rewrite Hx; discriminate).
  rewrite IH by lia. reflexivity.
Qed.

Lemma record_at_length (buff : buffer) (start record_size i : nat) :
  (start + S i * record_size <= List.length buff)%nat ->
  List.length (record_at buff start record_size i) = record_size.
Proof.
  intros Hfit. unfold record_at. rewrite length_firstn, length_skipn.
  cbn in Hfit. lia.
Qed.

(** The records tile the payload: put end to end they are its first
    [count * record_size] bytes. *)
Lemma concat_records (buff : buffer) (start record_size count : nat) :
  List.concat (map (record_at buff start record_size) (seq 0 count))
  = firstn (count * record_size) (skipn start buff).
Proof.
  induction count as [|count IH]; [reflexivity|].
  rewrite seq_S, map_app, concat_app, IH. cbn [map List.concat Nat.add].
  rewrite app_nil_r. unfold record_at.
  rewrite (Nat.add_comm start), <- (skipn_skipn (count * record_size) start buff).
  set (l := skipn start buff).
  rewrite <- (firstn_skipn (count * record_size)
                (firstn (S count * record_size) l)).
  rewrite firstn_firstn, Nat.min_l by (cbn; lia).
  f_equal. rewrite skipn_firstn_comm. f_equal. cbn. lia.
Qed.

(** What a successful [ReadDataHelper] has done. *)
Lemma ReadDataHelper_Ok_inv (fs : FileSystem) (path : string)
    (expected : FileType) (buff : buffer) (image_size : Z) (header : Header) :
  ReadDataHelper fs path expected = Ok (buff, image_size, header) ->
  fs path = Some buff /\
  ReadHeader buff = Ok header /\
  ftype header = expected /\
  exists count extents,
    dim_sizes header = count :: extents /\
    image_size = accumulate extents 1 mul_u32.
Proof.
  unfold ReadDataHelper.
  destruct (fs path) as [buff0|]; [|discriminate].
  destruct (ReadHeader buff0) as [h| |] eqn:Hh; try discriminate. cbn [bind].
  destruct (FileType_eqb (ftype h) expected) eqn:Hk; [|discriminate].
  destruct (dim_sizes h) as [|count extents] eqn:Hd; [discriminate|].
  intros [= <- <- <-]. repeat split; try assumption.
  - destruct (ftype h), expected; try reflexivity; discriminate.
  - now exists count, extents.
Qed.

Lemma ReadImages_Ok_inv (fs : FileSystem) (path : string)
    (imgs : list (list byte)) :
  ReadImages fs path = Ok imgs ->
  exists buff header count extents,
    fs path = Some buff /\
    ReadHeader buff = Ok header /\
    ftype header = IMAGE /\
    dim_sizes header = count :: extents /\
    (payload_offset header
     + Z.to_nat count * Z.to_nat (accumulate extents 1 mul_u32)
     <= List.length buff)%nat /\
    imgs = map (record_at buff (payload_offset header)
                  (Z.to_nat (accumulate extents 1 mul_u32)))
               (seq 0 (Z.to_nat count)).
Proof.
  unfold ReadImages.
  destruct (ReadDataHelper fs path IMAGE) as [[[buff size] header]| |] eqn:Hr;
    try discriminate.
  destruct (ReadDataHelper_Ok_inv _ _ _ Hr)
    as [Hfs [Hh [Hk [count [extents [Hd ->]]]]]].
  cbn [bind]. unfold instance_count. rewrite Hd. cbn [bind].
  intros Hloop. exists buff, header, count, extents.
  repeat (split; [assumption|]).
  destruct (Nat.le_gt_cases
              (payload_offset header
               + Z.to_nat count * Z.to_nat (accumulate extents 1 mul_u32))
              (List.length buff)) as [Hin | Hout].
  - rewrite read_images_loop_ok in Hloop by assumption.
    injection Hloop as <-. auto.
  - rewrite read_images_loop_short in Hloop;
      [discriminate | now apply payload_offset_in_buffer | assumption].
Qed.

Lemma accumulate_nonneg (extents : list Z) (init : Z) :
  0 <= init -> 0 <= accumulate extents init mul_u32.
Proof.
  unfold accumulate. revert init.
  induction extents as [|d ds IH]; intros init Hi; cbn; [assumption|].
  apply IH. apply Z.mod_pos_bound. lia.
Qed.

(** X4. What [ReadImages] returns covers the payload exactly: there are
    [dim_sizes[0]] records, each of the 32-bit product of the other sizes,
    and put end to end they are the bytes that follow the header, in file
    order, with no gap, overlap or conversion. *)
Theorem ReadImages_records_tile_payload (fs : FileSystem) (path : string)
    (imgs : list (list byte)) :
  ReadImages fs path = Ok imgs ->
  exists buff header count extents,
    fs path = Some buff /\
    ReadHeader buff = Ok header /\
    dim_sizes header = count :: extents /\
    Z.of_nat (List.length imgs) = count /\
    Forall (fun img =>
              Z.of_nat (List.length img) = accumulate extents 1 mul_u32) imgs /\
    List.concat imgs
    = firstn (List.length imgs * Z.to_nat (accumulate extents 1 mul_u32))
             (skipn (payload_offset header) buff).
Proof.
  intros Hr.
  destruct (ReadImages_Ok_inv _ _ Hr)
    as [buff [header [count [extents [Hfs [Hh [Hk [Hd [Hfit ->]]]]]]]]].
  exists buff, header, count, extents.
  pose proof (ReadHeader_dims_range _ Hh) as Hrange. rewrite Hd in Hrange.
  inversion Hrange as [|? ? Hc _]; subst.
  pose proof (@accumulate_nonneg extents 1 ltac:(lia)) as Hacc.
  rewrite length_map, length_seq.
  repeat (split; [assumption|]). split; [lia|]. split.
  - apply Forall_forall. intros img Hin.
    apply in_map_iff in Hin. destruct Hin as [i [<- Hi]].
    apply in_seq in Hi.
    rewrite record_at_length; [lia|]. nia.
  - apply concat_records.
Qed.

Lemma ReadImages_records_tile_payload_witness :
  List.concat images_3x2x2 = firstn 12 (skipn 16 image_file_3x2x2).
Proof.
  destruct (@ReadImages_records_tile_payload test_fs "images" images_3x2x2
              eq_refl)
    as [buff [header [count [extents [Hfs [Hh [Hd [Hc [_ Hcat]]]]]]]]].
  injection Hfs as <-. injection Hh as <-. injection Hd as <- <-.
  exact Hcat.
Defined.

(** X5. An image file shorter than its header announces is not rejected:
    [ReadImages] reads past the end of the buffer, which is undefined
    behaviour, and throws nothing. *)
Theorem ReadImages_truncated_payload (fs : FileSystem) (path : string)
    (buff : buffer) (header : Header) (count : Z) (extents : list Z) :
  fs path = Some buff ->
  ReadHeader buff = Ok header ->
  ftype header = IMAGE ->
  dim_sizes header = count :: extents ->
  Z.of_nat (List.length buff)
  < Z.of_nat (payload_offset header)
    + count * accumulate extents 1 mul_u32 ->
  ReadImages fs path = Undefined /\ ~ throws (ReadImages fs path).
Proof.
  intros Hfs Hh Hk Hd Hshort.
  assert (Hu : ReadImages fs path = Undefined).
  { unfold ReadImages. rewrite <- Hk.
    rewrite (ReadDataHelper_ok fs path Hfs Hh Hd). cbn [bind].
    unfold instance_count. rewrite Hd. cbn [bind].
    apply read_images_loop_short; [now apply payload_offset_in_buffer|].
    pose proof (ReadHeader_dims_range _ Hh) as Hrange. rewrite Hd in Hrange.
    inversion Hrange as [|? ? Hc _]; subst.
    pose proof (@accumulate_nonneg extents 1 ltac:(lia)).
    apply Nat2Z.inj_lt.
    rewrite Nat2Z.inj_add, Nat2Z.inj_mul, !Z2Nat.id by lia. exact Hshort. }
  split; [exact Hu|]. intros [w Hw]. rewrite Hu in Hw. discriminate Hw.
Qed.

Lemma ReadImages_truncated_payload_witness :
  ReadImages (fun _ => Some (firstn 27 image_file_3x2x2)) "images" = Undefined
  /\ ~ throws
       (ReadImages (fun _ => Some (firstn 27 image_file_3x2x2)) "images").
Proof.
  apply (@ReadImages_truncated_payload _ "images" (firstn 27 image_file_3x2x2)
           (mkHeader IMAGE 3 [3; 2; 2]) 3 [2; 2]).
  - reflexivity.
  - reflexivity.
  - reflexivity.
  - reflexivity.
  - vm_compute. reflexivity.
Defined.

(** X6. [ReadLabels] accepts every file whose magic word is not [0x803] and
    has at least one dimension, and returns one byte per instance: the
    [dim_sizes[0]] bytes that follow the header, unchanged and in file
    order, whatever the other sizes say. *)
Theorem ReadLabels_reads_bytes_after_header (fs : FileSystem) (path : string)
    (buff : buffer) (magic count : Z) :
  fs path = Some buff ->
  be_u32_at buff 0 = Some magic ->
  magic <> 0x803 ->
  1 <= Z.land magic 0xFF ->
  be_u32_at buff 4 = Some count ->
  4 + 4 * Z.land magic 0xFF + count <= Z.of_nat (List.length buff) ->
  ReadLabels fs path
  = Ok (firstn (Z.to_nat count)
               (skipn (Z.to_nat (4 + 4 * Z.land magic 0xFF)) buff)) /\
  forall lbls, ReadLabels fs path = Ok lbls ->
    Z.of_nat (List.length lbls) = count.
Proof.
  intros Hfs Hm Hne Hn Hc Hfit.
  pose proof (be_u32_at_range _ _ Hc) as Hcr.
  destruct (ReadHeader_ok buff Hm ltac:(lia)) as [dims [Hh [Hl Hd]]].
  destruct (Z.eqb_spec magic 0x803) as [|_]; [contradiction|].
  destruct dims as [|c extents]; [cbn in Hl; lia|].
  assert (c = count).
  { specialize (Hd 0%nat ltac:(lia)). cbn in Hd. rewrite Hc in Hd.
    now injection Hd. }
  subst c.
  pose proof (payload_offset_after_header _ Hh) as Hp. cbn [dim_sizes] in Hp.
  assert (Hr : ReadLabels fs path
               = Ok (firstn (Z.to_nat count)
                       (skipn (Z.to_nat (4 + 4 * Z.land magic 0xFF)) buff))).
  { rewrite (@ReadLabels_ok fs path buff _ count extents Hfs Hh eq_refl eq_refl).
    - do 3 f_equal. rewrite Hp, Hl. lia.
    - rewrite Hp, Hl. lia. }
  split; [exact Hr|].
  intros lbls Hl'. rewrite Hr in Hl'.
  assert (Hoff : exists off, off = Z.to_nat (4 + 4 * Z.land magic 0xFF))
    by (eexists; reflexivity).
  destruct Hoff as [off Hoff]. rewrite <- Hoff in Hl'.
  injection Hl' as <-.
  rewrite length_firstn, length_skipn. lia.
Qed.

Lemma ReadLabels_reads_bytes_after_header_witness :
  ReadLabels test_fs "labels" = Ok (map b [7; 8; 9]%N).
Proof.
  destruct (@ReadLabels_reads_bytes_after_header test_fs "labels"
              label_file_3 0x801 3) as [Hr _].
  - reflexivity.
  - reflexivity.
  - discriminate.
  - vm_compute. discriminate.
  - reflexivity.
  - vm_compute. discriminate.
  - exact Hr.
Defined.

(** X7. A file whose magic word announces no dimension at all cannot be read
    as labels: the decoded size vector is empty, and stepping to its second
    element is undefined behaviour.  Read as images, the same file is
    rejected with the file-type error. *)
Theorem ReadLabels_without_dimensions (fs : FileSystem) (path : string)
    (buff : buffer) (magic : Z) :
  fs path = Some buff ->
  be_u32_at buff 0 = Some magic ->
  Z.land magic 0xFF = 0 ->
  ReadLabels fs path = Undefined /\
  ReadImages fs path = Throw msg_filetype.
Proof.
  intros Hfs Hm Hz.
  assert (Hlen : (4 <= List.length buff)%nat).
  { destruct (Nat.le_gt_cases 4 (List.length buff)); [assumption|].
    rewrite be_u32_at_None in Hm by (cbn; lia). discriminate. }
  destruct (ReadHeader_ok buff Hm ltac:(rewrite Hz; cbn; lia))
    as [dims [Hh [Hl _]]].
  rewrite Hz in Hl. destruct dims; [|discriminate].
  assert (Hne : (magic =? 0x803) = false).
  { apply Z.eqb_neq. intros ->. discriminate Hz. }
  rewrite Hne in Hh.
  unfold ReadLabels, ReadImages, ReadDataHelper. rewrite Hfs, Hh.
  split; reflexivity.
Qed.

Lemma ReadLabels_without_dimensions_witness :
  ReadLabels (fun _ => Some (map b [0;0;8;0;  0;0;0;3;  7;8;9]%N)) "labels"
  = Undefined /\
  ReadImages (fun _ => Some (map b [0;0;8;0;  0;0;0;3;  7;8;9]%N)) "labels"
  = Throw msg_filetype.
Proof.
  apply (@ReadLabels_without_dimensions _ "labels"
           (map b [0;0;8;0;  0;0;0;3;  7;8;9]%N) 0x800).
  - reflexivity.
  - reflexivity.
  - reflexivity.
Defined.

(** X8. A label file shorter than its header announces is not rejected
    either: [ReadLabels] reads past the end of the buffer. *)
Theorem ReadLabels_truncated_payload (fs : FileSystem) (path : string)
    (buff : buffer) (header : Header) (count : Z) (extents : list Z) :
  fs path = Some buff ->
  ReadHeader buff = Ok header ->
  ftype header = LABEL ->
  dim_sizes header = count :: extents ->
  Z.of_nat (List.length buff) < Z.of_nat (payload_offset header) + count ->
  ReadLabels fs path = Undefined /\ ~ throws (ReadLabels fs path).
Proof.
  intros Hfs Hh Hk Hd Hshort.
  assert (Hu : ReadLabels fs path = Undefined).
  { unfold ReadLabels. rewrite <- Hk.
    rewrite (ReadDataHelper_ok fs path Hfs Hh Hd). cbn [bind].
    unfold instance_count. rewrite Hd. cbn [bind].
    apply read_labels_loop_short; [now apply payload_offset_in_buffer | lia]. }
  split; [exact Hu|]. intros [w Hw]. rewrite Hu in Hw. discriminate Hw.
Qed.

Lemma ReadLabels_truncated_payload_witness :
  ReadLabels (fun _ => Some (firstn 10 label_file_3)) "labels" = Undefined /\
  ~ throws (ReadLabels (fun _ => Some (firstn 10 label_file_3)) "labels").
Proof.
  apply (@ReadLabels_truncated_payload _ "labels" (firstn 10 label_file_3)
           (mkHeader LABEL 1 [3]) 3 []).
  - reflexivity.
  - reflexivity.
  - reflexivity.
  - reflexivity.
  - vm_compute. reflexivity.
Defined.

(** ** The reader into fixed-size arrays *)

Lemma read_arrays_loop_ok (N : nat) (buff : buffer)
    (image_size count cursor : nat) :
  (cursor + count * image_size <= List.length buff)%nat ->
  (image_size <= N)%nat ->
  read_arrays_loop N buff cursor image_size count
  = Ok (map (array_of_record N)
            (map (record_at buff cursor image_size) (seq 0 count))).
Proof.
  intros Hfit HN. revert cursor Hfit.
  induction count as [|count IH]; intros cursor Hfit; [reflexivity|].
  cbn [read_arrays_loop]. unfold copy_n_into_array.
  rewrite read_range_ok by (cbn in Hfit; lia). cbn [bind].
  destruct (Nat.leb_spec image_size N) as [_|]; [|lia]. cbn [bind].
  rewrite IH by (cbn in Hfit; lia). cbn [bind seq map].
  f_equal. f_equal.
  - unfold array_of_record, record_at. rewrite Nat.add_0_r.
    rewrite length_firstn, length_skipn.
    replace (Nat.min image_size (List.length buff - cursor)) with image_size
      by (cbn in Hfit; lia).
    reflexivity.
  - rewrite <- seq_shift, !map_map. apply map_ext. intros i.
    unfold record_at. do 3 f_equal. lia.
Qed.

Lemma read_arrays_loop_overflow (N : nat) (buff : buffer)
    (image_size count cursor : nat) :
  (N < image_size)%nat ->
  read_arrays_loop N buff cursor image_size (S count) = Undefined.
Proof.
  intros HN. cbn [read_arrays_loop]. unfold copy_n_into_array.
  destruct (read_range buff cursor image_size) as [src|w|] eqn:Hr;
    try reflexivity.
  - cbn [bind]. destruct (Nat.leb_spec image_size N); [lia | reflexivity].
  - unfold read_range in Hr.
    destruct (cursor + image_size <=? List.length buff)%nat; discriminate.
Qed.

(** X9. The two image readers agree: whenever the records [ReadImages]
    returns fit in [N] elements, [ReadImages<T, N>] returns the same records,
    each at the front of its array and followed by elements that were never
    written. *)
Theorem ReadImagesArray_agrees_with_ReadImages (N : nat) (fs : FileSystem)
    (path : string) (imgs : list (list byte)) :
  ReadImages fs path = Ok imgs ->
  Forall (fun img => (List.length img <= N)%nat) imgs ->
  ReadImagesArray N fs path = Ok (map (array_of_record N) imgs).
Proof.
  intros Hr Hall.
  destruct (ReadImages_Ok_inv _ _ Hr)
    as [buff [header [count [extents [Hfs [Hh [Hk [Hd [Hfit ->]]]]]]]]].
  unfold ReadImagesArray. rewrite <- Hk.
  rewrite (ReadDataHelper_ok fs path Hfs Hh Hd). cbn [bind].
  unfold instance_count. rewrite Hd. cbn [bind].
  destruct (Z.to_nat count) as [|n] eqn:Hn; [reflexivity|].
  apply read_arrays_loop_ok; [assumption|].
  cbn [seq map] in Hall. inversion Hall as [|? ? Hfirst _]; subst.
  rewrite record_at_length in Hfirst; [assumption|]. nia.
Qed.

Lemma ReadImagesArray_agrees_with_ReadImages_witness :
  ReadImagesArray 6 test_fs "images"
  = Ok (map (array_of_record 6) images_3x2x2).
Proof.
  apply ReadImagesArray_agrees_with_ReadImages.
  - reflexivity.
  - repeat constructor.
Defined.

(** X10. When a record is longer than the array, [ReadImages<T, N>] copies
    past the end of the [std::array]: undefined behaviour, with no check and
    no exception.  This is what the executable does on any image file whose
    records exceed 784 bytes. *)
Theorem ReadImagesArray_record_too_long (N : nat) (fs : FileSystem)
    (path : string) (imgs : list (list byte)) :
  ReadImages fs path = Ok imgs ->
  Exists (fun img => (N < List.length img)%nat) imgs ->
  ReadImagesArray N fs path = Undefined.
Proof.
  intros Hr Hex.
  destruct (ReadImages_Ok_inv _ _ Hr)
    as [buff [header [count [extents [Hfs [Hh [Hk [Hd [Hfit ->]]]]]]]]].
  unfold ReadImagesArray. rewrite <- Hk.
  rewrite (ReadDataHelper_ok fs path Hfs Hh Hd). cbn [bind].
  unfold instance_count. rewrite Hd. cbn [bind].
  apply Exists_exists in Hex. destruct Hex as [img [Hin Hlong]].
  apply in_map_iff in Hin. destruct Hin as [i [<- Hi]]. apply in_seq in Hi.
  rewrite record_at_length in Hlong by nia.
  destruct (Z.to_nat count) as [|n]; [lia|].
  now apply read_arrays_loop_overflow.
Qed.

Lemma ReadImagesArray_record_too_long_witness :
  ReadImagesArray 3 test_fs "images" = Undefined.
Proof.
  apply (@ReadImagesArray_record_too_long 3 test_fs "images" images_3x2x2).
  - reflexivity.
  - apply Exists_cons_hd. cbn. lia.
Defined.

(** ** More on assembling and constructing *)

(** X11. A file that cannot be opened makes the build fail without an
    exception: [build_data_] logs the open error, with the path, and returns
    a null pointer.  For the image file this happens before the label file
    is looked at; the constructor then throws its null-pointer error. *)
Theorem build_data_missing_file (fs : FileSystem) (path : string) :
  fs path = None ->
  (forall labels_path,
     build_data_ (C := list byte) fs path labels_path
     = (Ok None,
        [(INFO, "Now reading images...");
         (ERROR, ("Error in build_data_: failed to open file from path: "
                  ++ path)%string)]) /\
     fst (DataHandler_of_paths (C := list byte) fs path labels_path)
     = Throw msg_null_shape) /\
  (forall N labels_path,
     build_data_ (C := std_array N) fs path labels_path
     = (Ok None,
        [(INFO, "Now reading images...");
         (ERROR, ("Error in build_data_: failed to open file from path: "
                  ++ path)%string)])) /\
  (forall (C : Type) (IC : ImageContainer C) imgs_path imgs,
     read_images_as fs imgs_path = Ok imgs ->
     build_data_ fs imgs_path path
     = (Ok None,
        [(INFO, "Now reading images...");
         (INFO, "Images read compeleted!");
         (INFO, "Now reading labels...");
         (ERROR, ("Error in build_data_: failed to open file from path: "
                  ++ path)%string)])).
Proof.
  intros Hnone.
  assert (Hd : forall k, ReadDataHelper fs path k = Throw (msg_open_failed path))
    by (intros k; unfold ReadDataHelper; rewrite Hnone; reflexivity).
  assert (Hv : ReadImages fs path = Throw (msg_open_failed path))
    by (unfold ReadImages; rewrite Hd; reflexivity).
  assert (Ha : forall N, ReadImagesArray N fs path
                         = Throw (msg_open_failed path))
    by (intros N; unfold ReadImagesArray; rewrite Hd; reflexivity).
  assert (Hl : ReadLabels fs path = Throw (msg_open_failed path))
    by (unfold ReadLabels; rewrite Hd; reflexivity).
  split; [|split].
  - intros labels_path.
    assert (Hb : build_data_ (C := list byte) fs path labels_path
                 = (Ok None,
                    [(INFO, "Now reading images...");
                     (ERROR, ("Error in build_data_: "
                              ++ msg_open_failed path)%string)])).
    { unfold build_data_. cbn [read_images_as vector_container].
      rewrite Hv. reflexivity. }
    split; [exact Hb|].
    unfold DataHandler_of_paths, lbind. rewrite Hb. reflexivity.
  - intros N labels_path. unfold build_data_.
    cbn [read_images_as array_container]. rewrite Ha. reflexivity.
  - intros C IC imgs_path imgs Hi. unfold build_data_.
    rewrite Hi, Hl. reflexivity.
Qed.

Lemma build_data_missing_file_witness :
  fst (DataHandler_of_paths (C := list byte) test_fs "nowhere" "labels")
  = Throw msg_null_shape.
Proof.
  destruct (@build_data_missing_file test_fs "nowhere" eq_refl) as [Hv _].
  exact (proj2 (Hv "labels")).
Defined.

Section ConstructorFacts.

Context {C : Type} `{ImageContainer C}.

Lemma build_data_None_logged (fs : FileSystem) (imgs_path labels_path : string) :
  fst (build_data_ fs imgs_path labels_path) = Ok None ->
  exists entries what,
    snd (build_data_ fs imgs_path labels_path)
    = entries ++ [(ERROR, ("Error in build_data_: " ++ what)%string)].
Proof.
  unfold build_data_. run_logged.
  destruct (read_images_as fs imgs_path) as [imgs|w|]; cbn; try discriminate.
  2:{ intros _. now exists [(INFO, "Now reading images...")], w. }
  destruct (ReadLabels fs labels_path) as [lbls|w|]; cbn; try discriminate.
  2:{ intros _. eexists [_; _; _], w. reflexivity. }
  destruct (List.length imgs =? List.length lbls)%nat; cbn; try discriminate.
  intros _. eexists [_; _; _; _], msg_count_mismatch. reflexivity.
Qed.

(** X12. Whatever goes wrong while the files are read, the only exception
    that leaves the constructor is the null-pointer error of [get_shape_]:
    [build_data_] itself never throws, it has returned a null pointer, and
    the error that caused it is only to be found as the last entry of the
    log. *)
Theorem constructor_throws_only_null_pointer (fs : FileSystem)
    (images_path labels_path : string) (what : string) :
  fst (DataHandler_of_paths (C := C) fs images_path labels_path) = Throw what ->
  what = msg_null_shape /\
  fst (build_data_ (C := C) fs images_path labels_path) = Ok None /\
  exists entries cause,
    snd (DataHandler_of_paths (C := C) fs images_path labels_path)
    = entries ++ [(ERROR, ("Error in build_data_: " ++ cause)%string)].
Proof.
  intros Ht.
  pose proof (@build_data_None_logged fs images_path labels_path) as Hlog.
  unfold DataHandler_of_paths, lbind, lift in *.
  pose proof (@build_data_no_throw C _ fs images_path labels_path what) as Hn.
  destruct (fst (build_data_ fs images_path labels_path)) as [[d|]|w|];
    cbn [fst snd] in *.
  - unfold DataHandler_of_ptr, get_shape_ in Ht.
    destruct (images d); discriminate.
  - injection Ht as <-. split; [reflexivity|]. split; [reflexivity|].
    destruct (Hlog eq_refl) as [entries [cause ->]].
    exists entries, cause. now rewrite app_nil_r.
  - injection Ht as ->. contradiction.
  - discriminate.
Qed.

(** X13. The constructor from two paths succeeds exactly when both files are
    read, there is at least one image, and there are as many labels as
    images; the handler then owns exactly what the two readers returned, and
    [Data()] hands it back. *)
Theorem constructor_succeeds_iff (fs : FileSystem)
    (images_path labels_path : string) (h : DataHandler C) :
  fst (DataHandler_of_paths fs images_path labels_path) = Ok h <->
  exists imgs lbls img0 rest,
    read_images_as fs images_path = Ok imgs /\
    ReadLabels fs labels_path = Ok lbls /\
    imgs = img0 :: rest /\
    List.length imgs = List.length lbls /\
    get_Data h = Ok (mkData imgs lbls) /\
    m_shape h = ((Z.of_nat (List.length imgs), container_size img0),
                 (Z.of_nat (List.length lbls), 1)).
Proof.
  split.
  - intros Hh.
    destruct (DataHandler_of_paths_inv _ _ _ Hh) as [ptr [Hb Hp]].
    destruct (DataHandler_of_ptr_inv _ Hp) as [d [img0 [rest [-> [Hi ->]]]]].
    destruct (build_data_Some_inv _ _ _ Hb) as [Hri [Hrl Hlen]].
    destruct d as [imgs lbls]. cbn in *.
    exists imgs, lbls, img0, rest. auto 10.
  - intros [imgs [lbls [img0 [rest [Hri [Hrl [Hi [Hlen [Hg Hs]]]]]]]]].
    unfold DataHandler_of_paths, lbind, lift.
    rewrite (build_data_reads_ok _ _ _ Hri Hrl).
    rewrite (proj2 (Nat.eqb_eq _ _) Hlen). cbn [fst snd].
    unfold DataHandler_of_ptr, get_shape_. cbn [images labels].
    rewrite Hi at 1. cbn [bind fst]. f_equal.
    destruct h as [ptr shape]. unfold get_Data in Hg. cbn in Hg, Hs.
    destruct ptr as [d|]; [|discriminate]. injection Hg as ->.
    rewrite Hs. reflexivity.
Qed.

End ConstructorFacts.

(** ** The shape, traced back to the image file *)

(** X14. Over [std::vector] images, the shape of a handler built from two
    files repeats the header of the image file: both counts are its
    [dim_sizes[0]], which is at least 1, and the record length is the 32-bit
    product of its other sizes. *)
Theorem vector_handler_shape_from_header (fs : FileSystem)
    (images_path labels_path : string) (h : DataHandler (list byte)) :
  fst (DataHandler_of_paths fs images_path labels_path) = Ok h ->
  exists buff header count extents,
    fs images_path = Some buff /\
    ReadHeader buff = Ok header /\
    dim_sizes header = count :: extents /\
    1 <= count /\
    m_shape h = ((count, accumulate extents 1 mul_u32), (count, 1)).
Proof.
  intros Hh.
  destruct (DataHandler_of_paths_inv _ _ _ Hh) as [ptr [Hb Hp]].
  destruct (DataHandler_of_ptr_inv _ Hp) as [d [img0 [rest [-> [Hi ->]]]]].
  destruct (build_data_Some_inv _ _ _ Hb) as [Hri [_ Hlen]].
  cbn [read_images_as vector_container] in Hri.
  destruct (ReadImages_Ok_inv _ _ Hri)
    as [buff [header [count [extents [Hfs [Hd [_ [Hs [Hfit Himgs]]]]]]]]].
  exists buff, header, count, extents.
  repeat (split; [assumption|]).
  pose proof (@accumulate_nonneg extents 1 ltac:(lia)) as Hacc.
  assert (Hn : List.length (images d) = Z.to_nat count)
    by (rewrite Himgs, length_map, length_seq; reflexivity).
  assert (Hpos : (1 <= Z.to_nat count)%nat)
    by (rewrite <- Hn, Hi; cbn; lia).
  split; [lia|]. cbn [m_shape container_size vector_container].
  rewrite <- Hlen, Hn.
  assert (H0 : img0 = record_at buff (payload_offset header)
                        (Z.to_nat (accumulate extents 1 mul_u32)) 0).
  { rewrite Hi in Himgs. destruct (Z.to_nat count); [lia|].
    cbn [seq map] in Himgs. now injection Himgs. }
  rewrite H0, record_at_length by nia.
  rewrite !Z2Nat.id by lia. reflexivity.
Qed.

Lemma vector_handler_shape_from_header_witness :
  m_shape handler_3x2x2 = ((3, 4), (3, 1)).
Proof.
  destruct (@vector_handler_shape_from_header test_fs "images" "labels"
              handler_3x2x2 eq_refl)
    as [buff [header [count [extents [Hfs [Hh [Hd [_ Hs]]]]]]]].
  injection Hfs as <-. injection Hh as <-. injection Hd as <- <-.
  exact Hs.
Defined.

Lemma read_arrays_loop_length (N : nat) (buff : buffer)
    (image_size count cursor : nat) (arrs : list (std_array N)) :
  read_arrays_loop N buff cursor image_size count = Ok arrs ->
  List.length arrs = count.
Proof.
  revert cursor arrs. induction count as [|count IH]; intros cursor arrs; cbn.
  - now intros [= <-].
  - destruct (copy_n_into_array N buff cursor image_size); try discriminate.
    cbn [bind].
    destruct (read_arrays_loop N buff (cursor + image_size) image_size count)
      as [rest| |] eqn:Hr; try discriminate.
    cbn [bind]. intros [= <-]. cbn. f_equal. exact (IH _ _ Hr).
Qed.

(** X15. Over [std::array<uint8_t, N>] images, the counts in the shape are
    again the [dim_sizes[0]] of the image file, but the record length is
    [N], whatever rows and columns the file announces. *)
Theorem array_handler_shape_from_header (N : nat) (fs : FileSystem)
    (images_path labels_path : string) (h : DataHandler (std_array N)) :
  fst (DataHandler_of_paths fs images_path labels_path) = Ok h ->
  exists buff header count extents,
    fs images_path = Some buff /\
    ReadHeader buff = Ok header /\
    dim_sizes header = count :: extents /\
    1 <= count /\
    m_shape h = ((count, Z.of_nat N), (count, 1)).
Proof.
  intros Hh.
  destruct (DataHandler_of_paths_inv _ _ _ Hh) as [ptr [Hb Hp]].
  destruct (DataHandler_of_ptr_inv _ Hp) as [d [img0 [rest [-> [Hi ->]]]]].
  destruct (build_data_Some_inv _ _ _ Hb) as [Hri [_ Hlen]].
  cbn [read_images_as array_container] in Hri.
  unfold ReadImagesArray in Hri.
  destruct (ReadDataHelper fs images_path IMAGE)
    as [[[buff size] header]| |] eqn:Hr; try discriminate.
  destruct (ReadDataHelper_Ok_inv _ _ _ Hr)
    as [Hfs [Hd [_ [count [extents [Hs ->]]]]]].
  cbn [bind] in Hri. unfold instance_count in Hri. rewrite Hs in Hri.
  cbn [bind] in Hri. apply read_arrays_loop_length in Hri.
  exists buff, header, count, extents.
  repeat (split; [assumption|]).
  assert (Hpos : (1 <= Z.to_nat count)%nat)
    by (rewrite <- Hri, Hi; cbn; lia).
  split; [lia|]. cbn [m_shape container_size array_container].
  rewrite <- Hlen, Hri, Z2Nat.id by lia. reflexivity.
Qed.

Lemma array_handler_shape_from_header_witness :
  exists h : DataHandler (std_array 6),
    fst (DataHandler_of_paths test_fs "images" "labels") = Ok h /\
    m_shape h = ((3, 6), (3, 1)).
Proof.
  eexists. split; [reflexivity|].
  match goal with
  | |- m_shape ?h = _ =>
      destruct (@array_handler_shape_from_header 6 test_fs "images"
                  "labels" h eq_refl)
        as [buff [header [count [extents [Hfs [Hh [Hd [_ Hs]]]]]]]]
  end.
  injection Hfs as <-. injection Hh as <-. injection Hd as <- <-.
  exact Hs.
Defined.

(** ** The executable *)

Lemma GetDatasetInstance_of_ptr {C : Type} `{ImageContainer C}
    (d : Data C) (h : DataHandler C) (index : Z) :
  DataHandler_of_ptr (Some d) = Ok h ->
  List.length (images d) = List.length (labels d) ->
  0 <= index ->
  fst (GetDatasetInstance h index)
  = if index <? Z.of_nat (List.length (images d))
    then match nth_error (images d) (Z.to_nat index),
               nth_error (labels d) (Z.to_nat index) with
         | Some img, Some lbl => Ok (img, lbl)
         | _, _ => Undefined
         end
    else Throw msg_out_of_bounds.
Proof.
  intros Hp Hlen Hidx.
  destruct (DataHandler_of_ptr_inv _ Hp) as [d' [img0 [rest [[= <-] [Hi ->]]]]].
  unfold GetDatasetInstance. cbn [m_shape m_datasetptr fst].
  destruct (Z.geb_spec index (Z.of_nat (List.length (images d))));
    destruct (Z.ltb_spec index (Z.of_nat (List.length (images d))));
    try lia; [reflexivity|].
  run_logged. unfold vector_at. cbn [fst snd].
  destruct (nth_error (images d) (Z.to_nat index)) as [img|] eqn:Himg.
  2:{ apply nth_error_None in Himg. lia. }
  destruct (nth_error (labels d) (Z.to_nat index)) as [lbl|] eqn:Hlbl.
  2:{ apply nth_error_None in Hlbl. lia. }
  reflexivity.
Qed.

Lemma fst_lbind {A B : Type} (m : logged A) (k : A -> logged B) :
  fst (lbind m k) = bind (fst m) (fun a => fst (k a)).
Proof. unfold lbind. destruct (fst m); reflexivity. Qed.

Lemma fst_try_catch {A : Type} (m : logged A) (h : string -> logged A) :
  fst (try_catch m h)
  = match fst m with
    | Throw w => fst (h w)
    | o => o
    end.
Proof. unfold try_catch. destruct (fst m) eqn:E; cbn; congruence. Qed.

(** X16. The exit status of [main].  No exception leaves it.  It ends with
    [EXIT_SUCCESS] exactly when the handler is constructed and holds more
    than 600 instances; when the constructor throws, or the handler holds
    600 instances or fewer (instance 600 is then out of bounds), the error is
    logged and it ends with [EXIT_FAILURE]; it is undefined exactly when the
    construction is.  The shape is printed whenever the handler exists. *)
Theorem main_exit_status (fs : FileSystem) (abs_img_path abs_lbl_path : string) :
  fst (main fs abs_img_path abs_lbl_path)
  = match fst (DataHandler_of_paths (C := std_array 784)
                 fs abs_img_path abs_lbl_path) with
    | Ok handler =>
        if 600 <? fst (fst (m_shape handler))
        then Ok EXIT_SUCCESS else Ok EXIT_FAILURE
    | Throw _ => Ok EXIT_FAILURE
    | Undefined => Undefined
    end /\
  main_stdout fs abs_img_path abs_lbl_path
  = match fst (DataHandler_of_paths (C := std_array 784)
                 fs abs_img_path abs_lbl_path) with
    | Ok handler => PrintShape handler
    | _ => EmptyString
    end.
Proof.
  unfold main, main_stdout.
  rewrite fst_try_catch, fst_lbind. cbn [LOG fst bind]. rewrite fst_lbind.
  destruct (fst (DataHandler_of_paths fs abs_img_path abs_lbl_path))
    as [h|w|] eqn:Hh; cbn [bind]; [|split; reflexivity ..].
  destruct (DataHandler_of_paths_inv _ _ _ Hh) as [ptr [Hb Hp]].
  destruct (DataHandler_of_ptr_inv _ Hp) as [d [img0 [rest [-> [Hi E]]]]].
  destruct (build_data_Some_inv _ _ _ Hb) as [_ [_ Hlen]].
  pose proof (@GetDatasetInstance_of_ptr _ _ d h 600 Hp Hlen ltac:(lia)) as Hg.
  assert (Hd : get_Data h = Ok d) by (rewrite E; reflexivity).
  rewrite Hd. split; [|reflexivity].
  rewrite fst_lbind. cbn [LOG fst bind].
  rewrite fst_lbind. cbn [lift fst bind].
  rewrite fst_lbind, Hg.
  replace (fst (fst (m_shape h))) with (Z.of_nat (List.length (images d)))
    by (rewrite E; reflexivity).
  destruct (Z.ltb_spec 600 (Z.of_nat (List.length (images d)))) as [Hlt|Hge].
  - destruct (nth_error (images d) (Z.to_nat 600)) as [img|] eqn:Himg.
    2:{ apply nth_error_None in Himg. lia. }
    destruct (nth_error (labels d) (Z.to_nat 600)) as [lbl|] eqn:Hlbl.
    2:{ apply nth_error_None in Hlbl. lia. }
    reflexivity.
  - reflexivity.
Qed.

(** *** MNIST-shaped files *)

Lemma u8_b (n : N) : (n < 256)%N -> u8 (b n) = Z.of_N n.
Proof.
  intros Hn. unfold u8, b.
  destruct (Byte.of_N n) as [x|] eqn:Hx.
  - now rewrite (@Byte.to_of_N n x Hx).
  - apply Byte.of_N_None_iff in Hx. lia.
Qed.

Lemma be_u32_of_count (count : nat) :
  (count < 256 * 256)%nat ->
  be_u32 (b 0) (b 0) (b (N.of_nat (count / 256))) (b (N.of_nat (count mod 256)))
  = Z.of_nat count.
Proof.
  intros Hc. unfold be_u32.
  assert (count / 256 < 256)%nat by (now apply Nat.Div0.div_lt_upper_bound).
  assert (count mod 256 < 256)%nat by (apply Nat.mod_upper_bound; lia).
  rewrite !u8_b by lia. rewrite !N2Z.inj_0, !nat_N_Z.
  pose proof (Nat.div_mod_eq count 256).
  change (2^8) with 256. lia.
Qed.

Lemma mnist_image_header (count : nat) (px : byte) :
  (count < 256 * 256)%nat ->
  ReadHeader (mnist_image_file count px)
  = Ok (mkHeader IMAGE 3 [Z.of_nat count; 28; 28]).
Proof.
  intros Hc.
  assert (Hm : be_u32_at (mnist_image_file count px) 0 = Some 0x803)
    by reflexivity.
  assert (Hlen : (4 + 4 * Z.to_nat (Z.land 0x803 0xFF)
                  <= List.length (mnist_image_file count px))%nat).
  { unfold mnist_image_file. rewrite !length_app. cbn. lia. }
  destruct (ReadHeader_ok _ Hm Hlen) as [dims [Hh [Hl Hk]]].
  rewrite Hh. change (Z.land 0x803 0xFF) with 3 in *.
  change (0x803 =? 0x803) with true. cbn iota. do 2 f_equal.
  destruct dims as [|a [|r [|c [|x l]]]]; try discriminate.
  pose proof (Hk 0%nat ltac:(cbn; lia)) as H0.
  pose proof (Hk 1%nat ltac:(cbn; lia)) as H1.
  pose proof (Hk 2%nat ltac:(cbn; lia)) as H2.
  change (be_u32_at (mnist_image_file count px) (4 + 4 * 0))
    with (Some (be_u32 (b 0) (b 0) (b (N.of_nat (count / 256)))
                       (b (N.of_nat (count mod 256))))) in H0.
  change (be_u32_at (mnist_image_file count px) (4 + 4 * 1))
    with (Some 28) in H1.
  change (be_u32_at (mnist_image_file count px) (4 + 4 * 2))
    with (Some 28) in H2.
  cbn [nth_error] in H0, H1, H2.
  rewrite (be_u32_of_count Hc) in H0. congruence.
Qed.

Lemma mnist_label_header (count : nat) (lbl : byte) :
  (count < 256 * 256)%nat ->
  ReadHeader (mnist_label_file count lbl)
  = Ok (mkHeader LABEL 1 [Z.of_nat count]).
Proof.
  intros Hc.
  assert (Hm : be_u32_at (mnist_label_file count lbl) 0 = Some 0x801)
    by reflexivity.
  assert (Hlen : (4 + 4 * Z.to_nat (Z.land 0x801 0xFF)
                  <= List.length (mnist_label_file count lbl))%nat).
  { unfold mnist_label_file. rewrite !length_app. cbn. lia. }
  destruct (ReadHeader_ok _ Hm Hlen) as [dims [Hh [Hl Hk]]].
  rewrite Hh. change (Z.land 0x801 0xFF) with 1 in *.
  change (0x801 =? 0x803) with false. cbn iota. do 2 f_equal.
  destruct dims as [|a [|x l]]; try discriminate.
  pose proof (Hk 0%nat ltac:(cbn; lia)) as H0.
  change (be_u32_at (mnist_label_file count lbl) (4 + 4 * 0))
    with (Some (be_u32 (b 0) (b 0) (b (N.of_nat (count / 256)))
                       (b (N.of_nat (count mod 256))))) in H0.
  cbn [nth_error] in H0.
  rewrite (be_u32_of_count Hc) in H0. congruence.
Qed.

(** Both readers of the executable succeed on MNIST-shaped files and return
    as many arrays and labels as the files announce. *)
Lemma mnist_files_read (fs : FileSystem) (img_path lbl_path : string)
    (count : nat) (px lbl : byte) :
  (count < 256 * 256)%nat ->
  fs img_path = Some (mnist_image_file count px) ->
  fs lbl_path = Some (mnist_label_file count lbl) ->
  exists arrs lbls,
    ReadImagesArray 784 fs img_path = Ok arrs /\
    ReadLabels fs lbl_path = Ok lbls /\
    List.length arrs = count /\
    List.length lbls = count.
Proof.
  intros Hc Hi Hl.
  pose proof (mnist_image_header px Hc) as Hhi.
  pose proof (mnist_label_header lbl Hc) as Hhl.
  assert (Hli : List.length (mnist_image_file count px)
                = (16 + count * 784)%nat).
  { unfold mnist_image_file. rewrite !length_app, repeat_length. cbn. lia. }
  assert (Hll : List.length (mnist_label_file count lbl) = (8 + count)%nat).
  { unfold mnist_label_file. rewrite !length_app, repeat_length. cbn. lia. }
  eexists. eexists. split; [|split].
  - unfold ReadImagesArray.
    pose proof (@ReadDataHelper_ok fs img_path _ _ _ _ Hi Hhi eq_refl) as Hd.
    cbn [ftype] in Hd. rewrite Hd.
    cbn [bind instance_count dim_sizes].
    change (accumulate [28; 28] 1 mul_u32) with 784.
    change (payload_offset (mkHeader IMAGE 3 [Z.of_nat count; 28; 28]))
      with 16%nat.
    rewrite Nat2Z.id.
    apply read_arrays_loop_ok; [|apply Nat.le_refl].
    rewrite Hli. change (Z.to_nat 784) with 784%nat. lia.
  - rewrite (@ReadLabels_ok fs lbl_path _ _ _ _ Hl Hhl eq_refl eq_refl).
    + reflexivity.
    + change (payload_offset (mkHeader LABEL 1 [Z.of_nat count])) with 8%nat.
      rewrite Hll. lia.
  - split.
    + rewrite !length_map, length_seq. reflexivity.
    + change (payload_offset (mkHeader LABEL 1 [Z.of_nat count])) with 8%nat.
      rewrite length_firstn, length_skipn, Hll. lia.
Qed.

Lemma main_exit_status_witness :
  fst (main (fun path =>
               if String.eqb path "images"
               then Some (mnist_image_file 601 x07)
               else Some (mnist_label_file 601 x03))
            "images" "labels")
  = Ok EXIT_SUCCESS.
Proof.
  set (fs := fun path : string =>
               if String.eqb path "images"
               then Some (mnist_image_file 601 x07)
               else Some (mnist_label_file 601 x03)).
  destruct (@mnist_files_read fs "images" "labels" 601 x07 x03)
    as [arrs [lbls [Hi [Hl [Hni Hnl]]]]];
    [lia | reflexivity | reflexivity |].
  destruct (main_exit_status fs "images" "labels") as [Hmain _].
  rewrite Hmain. clear Hmain.
  unfold DataHandler_of_paths. rewrite fst_lbind.
  rewrite (@build_data_reads_ok _ (array_container 784) fs "images" "labels"
             arrs lbls Hi Hl).
  rewrite (proj2 (Nat.eqb_eq _ _) (eq_trans Hni (eq_sym Hnl))).
  cbn [fst bind lift]. unfold DataHandler_of_ptr, get_shape_. cbn [images labels].
  destruct arrs as [|img0 rest]; [discriminate Hni|].
  cbn [bind m_shape fst]. rewrite Hni. reflexivity.
Defined.

(** ** The bounds check looks at the images only *)

(** X17. [GetDatasetInstance] compares the index with the number of images
    and with nothing else.  Over a dataset handed to the constructor with
    fewer labels than images, every index from the number of labels up to the
    number of images passes the check and [labels[index]] is read outside the
    vector: undefined behaviour, no exception, nothing logged. *)
Theorem GetDatasetInstance_unchecked_labels {C : Type} `{ImageContainer C}
    (d : Data C) (h : DataHandler C) (index : Z) :
  DataHandler_of_ptr (Some d) = Ok h ->
  Z.of_nat (List.length (labels d)) <= index
  < Z.of_nat (List.length (images d)) ->
  GetDatasetInstance h index = (Undefined, []).
Proof.
  intros Hp Hidx.
  destruct (DataHandler_of_ptr_inv _ Hp) as [d' [img0 [rest [[= <-] [Hi ->]]]]].
  unfold GetDatasetInstance. cbn [m_shape m_datasetptr fst].
  destruct (Z.geb_spec index (Z.of_nat (List.length (images d)))); [lia|].
  run_logged. unfold vector_at. cbn [fst snd].
  destruct (nth_error (images d) (Z.to_nat index)) as [img|] eqn:Himg.
  2:{ apply nth_error_None in Himg. lia. }
  cbn [fst snd].
  destruct (nth_error (labels d) (Z.to_nat index)) as [lbl|] eqn:Hlbl.
  - assert (Z.to_nat index < List.length (labels d))%nat
      by (apply nth_error_Some; rewrite Hlbl; discriminate).
    lia.
  - reflexivity.
Qed.

Lemma GetDatasetInstance_unchecked_labels_witness :
  GetDatasetInstance
    (mkDataHandler (Some (mkData images_3x2x2 [b 7])) ((3, 4), (1, 1))) 2
  = (Undefined, []).
Proof.
  apply (@GetDatasetInstance_unchecked_labels (list byte) _
           (mkData images_3x2x2 [b 7])).
  - reflexivity.
  - cbn. lia.
Defined.

(** A label file given as image file: the constructor throws the null-pointer
    error, and the file-type error is the last entry of the log. *)
Lemma constructor_throws_only_null_pointer_witness :
  msg_null_shape = msg_null_shape /\
  fst (build_data_ (C := list byte) test_fs "labels" "labels") = Ok None /\
  exists entries cause,
    snd (DataHandler_of_paths (C := list byte) test_fs "labels" "labels")
    = entries ++ [(ERROR, ("Error in build_data_: " ++ cause)%string)].
Proof.
  apply (@constructor_throws_only_null_pointer (list byte) _ test_fs
           "labels" "labels" msg_null_shape).
  reflexivity.
Defined.
